(** * Batch Uniclass matching API: a shallow embedding of the request handlers

    The request handlers of [src/unnamed/part_002] (sequential chunked
    handler), [src/unnamed/part_000] (parallel dispatch handler),
    [src/unnamed/part_001] (unchunked handler with a batch cap) and the last
    handler of [src/api/batch-match-uniclass.js] (one batched similarity call)
    are modelled over a small model of JSON/JavaScript values.  The embedding
    provider and the similarity store are oracles passed as arguments. *)

From Stdlib Require Import String Ascii List QArith ZArith NArith Lia Bool
  Permutation Qround Sorted Lqa.
Import ListNotations.

Set Warnings "-register-all".
Open Scope string_scope.

(** ** JavaScript values *)

(** JSON-decoded JavaScript values.  Numbers are kept as their exact rational
    value ([JNum]) or NaN; infinities and negative zero do not arise from JSON
    input and are not modelled.  Strings are ASCII strings. *)
Inductive jsval : Type :=
| JUndef
| JNull
| JBool (b : bool)
| JNum (q : Q)
| JNaN
| JStr (s : string)
| JArr (xs : list jsval)
| JObj (fields : list (string * jsval)).

(** Evaluation that may throw a JavaScript exception. *)
Inductive exc (A : Type) : Type :=
| Ok (a : A)
| Throw.
Arguments Ok {A} a.
Arguments Throw {A}.

Definition bind {A B : Type} (m : exc A) (k : A -> exc B) : exc B :=
  match m with Ok a => k a | Throw => Throw end.

Notation "x <- m ;; k" := (bind m (fun x => k))
  (at level 61, m at next level, right associativity).

(** [try { m } catch { h }] *)
Definition catch {A : Type} (m : exc A) (h : A) : A :=
  match m with Ok a => a | Throw => h end.

Fixpoint mapM {A B : Type} (f : A -> exc B) (l : list A) : exc (list B) :=
  match l with
  | [] => Ok []
  | x :: r => y <- f x ;; ys <- mapM f r ;; Ok (y :: ys)
  end.

(** [Array.prototype.map] with the index argument. *)
Fixpoint mapi_from {A B : Type} (f : nat -> A -> B) (i : nat) (l : list A)
  : list B :=
  match l with
  | [] => []
  | x :: r => f i x :: mapi_from f (S i) r
  end.

(** A [for (let i = 0; i < xs.length; i++)] loop whose body may throw. *)
Fixpoint mapiM_from {A B : Type} (f : nat -> A -> exc B) (i : nat)
    (l : list A) : exc (list B) :=
  match l with
  | [] => Ok []
  | x :: r => y <- f i x ;; ys <- mapiM_from f (S i) r ;; Ok (y :: ys)
  end.

Definition mapiM {A B : Type} (f : nat -> A -> exc B) (l : list A)
  : exc (list B) := mapiM_from f 0 l.

Definition mapi {A B : Type} (f : nat -> A -> B) (l : list A) : list B :=
  mapi_from f 0 l.

(** JavaScript truthiness. *)
Definition truthy (v : jsval) : bool :=
  match v with
  | JUndef | JNull | JNaN => false
  | JBool b => b
  | JNum q => negb (Qeq_bool q 0)
  | JStr s => negb (String.eqb s "")
  | JArr _ | JObj _ => true
  end.

(** [a || b] *)
Definition js_or (a b : jsval) : jsval := if truthy a then a else b.

(** Decimal rendering of a natural number. *)
Definition digit_char (d : N) : ascii := ascii_of_N (48 + d).

Fixpoint show_N_aux (fuel : nat) (n : N) (acc : string) : string :=
  match fuel with
  | O => acc
  | S f =>
      let acc' := String (digit_char (N.modulo n 10)) acc in
      if N.ltb n 10 then acc' else show_N_aux f (N.div n 10) acc'
  end.

Definition show_N (n : N) : string := show_N_aux (S (N.size_nat n)) n "".

(** Property keys: a name or an array index. *)
Inductive key : Type :=
| KName (s : string)
| KIdx (n : nat).

Fixpoint assoc (k : string) (fs : list (string * jsval)) : jsval :=
  match fs with
  | [] => JUndef
  | (k', v) :: r => if String.eqb k k' then v else assoc k r
  end.

Definition num_of_nat (n : nat) : jsval := JNum (inject_Z (Z.of_nat n)).

(** Property access [v.k] / [v[k]]: throws on [null] and [undefined]. *)
Definition member (v : jsval) (k : key) : exc jsval :=
  match v with
  | JUndef | JNull => Throw
  | JArr xs =>
      match k with
      | KIdx n => Ok (match nth_error xs n with Some x => x | None => JUndef end)
      | KName "length" => Ok (num_of_nat (length xs))
      | KName _ => Ok JUndef
      end
  | JStr s =>
      match k with
      | KIdx n =>
          Ok (match String.get n s with
              | Some c => JStr (String c EmptyString)
              | None => JUndef end)
      | KName "length" => Ok (num_of_nat (String.length s))
      | KName _ => Ok JUndef
      end
  | JObj fs =>
      match k with
      | KIdx n => Ok (assoc (show_N (N.of_nat n)) fs)
      | KName s => Ok (assoc s fs)
      end
  | _ => Ok JUndef
  end.

(** [a === b] on the values compared by the handlers. *)
Definition strict_eq_num (v : jsval) (q : Q) : bool :=
  match v with JNum p => Qeq_bool p q | _ => false end.

(** ASCII case mapping of [String.prototype.toUpperCase]. *)
Definition upper_ascii (c : ascii) : ascii :=
  let n := nat_of_ascii c in
  if Nat.leb 97 n && Nat.leb n 122 then ascii_of_nat (n - 32)%nat else c.

Fixpoint upper (s : string) : string :=
  match s with
  | EmptyString => EmptyString
  | String c r => String (upper_ascii c) (upper r)
  end.

(** [v.toUpperCase()]: only strings have the method; on [null]/[undefined]
    the property access throws, on any other value the call of [undefined]
    throws. *)
Definition js_toUpperCase (v : jsval) : exc string :=
  match v with JStr s => Ok (upper s) | _ => Throw end.

(** [Number.prototype.toFixed(2)] (ECMA-262): [n] is the integer for which
    [n / 100 - x] is closest to zero, the larger one on a tie; the result is
    the sign, the integer part of [n / 100], a dot and two fraction digits.
    The branch for magnitudes of at least 10^21 (which falls back to
    [Number::toString]) is outside the range of similarity scores and is not
    modelled. *)
Definition round_half_up_100 (x : Q) : Z := Qfloor (x * 100 + (1 # 2)).

Definition fixed2_nonneg (x : Q) : string :=
  let n := Z.to_N (round_half_up_100 x) in
  show_N (N.div n 100) ++ "." ++
  String (digit_char (N.div (N.modulo n 100) 10))
    (String (digit_char (N.modulo n 10)) EmptyString).

Definition toFixed2 (x : Q) : string :=
  if negb (Qle_bool 0 x) then "-" ++ fixed2_nonneg (- x) else fixed2_nonneg x.

(** [v.toFixed(2)]: only numbers have the method. *)
Definition js_toFixed2 (v : jsval) : exc string :=
  match v with
  | JNum q => Ok (toFixed2 q)
  | JNaN => Ok "NaN"
  | _ => Throw
  end.

(** [Array.prototype.slice(i, j)] on a list, [j] clamped to the length. *)
Definition slice {A : Type} (xs : list A) (i j : nat) : list A :=
  firstn (j - i) (skipn i xs).

(** [arr[i]] on an array of values: [undefined] out of range. *)
Definition nth_js (xs : list jsval) (i : nat) : jsval :=
  match nth_error xs i with Some x => x | None => JUndef end.

(** [Promise.all] over promises that resolve or reject: rejects as soon as
    one of them rejects. *)
Definition promise_all {A : Type} (ps : list (exc A)) : exc (list A) :=
  mapM (fun p => p) ps.

Section Runtime.

(** [Number::toString], the shortest round-trip decimal rendering of a
    double: left abstract, every statement below holds for any choice. *)
Variable number_to_string : Q -> string.

(** [StringToNumber] on the strings that are not a plain digit string below
    2^53 (signs, fractions, exponents, hexadecimal, surrounding white space,
    the empty string): left abstract. *)
Variable other_string_to_number : string -> option Q.

(** A number value: [None] is NaN. *)
Definition num_of_opt (o : option Q) : jsval :=
  match o with Some q => JNum q | None => JNaN end.

(** [ToString], as used by template literals. *)
Fixpoint js_to_string (v : jsval) : string :=
  match v with
  | JUndef => "undefined"
  | JNull => "null"
  | JBool true => "true"
  | JBool false => "false"
  | JNum q => number_to_string q
  | JNaN => "NaN"
  | JStr s => s
  | JArr xs =>
      String.concat ","
        ((fix go (l : list jsval) : list string :=
            match l with
            | [] => []
            | x :: r =>
                (match x with JUndef | JNull => "" | _ => js_to_string x end)
                  :: go r
            end) xs)
  | JObj _ => "[object Object]"
  end.

Fixpoint parse_digits (s : string) (acc : N) : option N :=
  match s with
  | EmptyString => Some acc
  | String c r =>
      let d := N_of_ascii c in
      if N.leb 48 d && N.leb d 57 then parse_digits r (acc * 10 + (d - 48))
      else None
  end.

(** [StringToNumber]: a non-empty digit string below 2^53 denotes its value
    exactly; any other string is handed to [other_string_to_number]. *)
Definition string_to_number (s : string) : jsval :=
  match s with
  | EmptyString => num_of_opt (other_string_to_number s)
  | String _ _ =>
      match parse_digits s 0 with
      | Some n =>
          if N.ltb n (2 ^ 53) then JNum (inject_Z (Z.of_N n))
          else num_of_opt (other_string_to_number s)
      | None => num_of_opt (other_string_to_number s)
      end
  end.

(** [Number(v)] and the numeric conversion of [a - b]: objects and arrays go
    through their string form. *)
Definition to_number (v : jsval) : jsval :=
  match v with
  | JUndef => JNaN
  | JNull => JNum 0
  | JBool b => JNum (if b then 1 else 0)
  | JNum q => JNum q
  | JNaN => JNaN
  | JStr s => string_to_number s
  | JArr _ | JObj _ => string_to_number (js_to_string v)
  end.

(** ** Chunked embedding fetcher *)

(** Outcome of one call to the embedding provider: a transport error, a
    non-ok status or an unparsable body ([PFail]), or the parsed JSON body. *)
Inductive provider_response : Type :=
| PFail
| PJson (data : jsval).

(** [getBatchEmbeddings] of [src/unnamed/part_002] (lines 4-46): on any
    failure a chunk of [null] markers of the length of the input. *)
Definition getBatchEmbeddings (provider : list jsval -> provider_response)
    (texts : list jsval) : list jsval :=
  catch
    (match provider texts with
     | PFail => Throw
     | PJson data =>
         embs <- member data (KName "embeddings") ;;
         match embs with
         | JArr xs => mapM (fun emb => member emb (KName "values")) xs
         | _ => Throw
         end
     end)
    (repeat JNull (length texts)).

(** [getBatchEmbeddings] of [src/unnamed/part_000] and of the last handler of
    [src/api/batch-match-uniclass.js]: [data.embeddings ? ... : fill(null)]. *)
Definition getBatchEmbeddings_v2 (provider : list jsval -> provider_response)
    (texts : list jsval) : list jsval :=
  catch
    (match provider texts with
     | PFail => Throw
     | PJson data =>
         embs <- member data (KName "embeddings") ;;
         if truthy embs then
           match embs with
           | JArr xs => mapM (fun emb => member emb (KName "values")) xs
           | _ => Throw
           end
         else Ok (repeat JNull (length texts))
     end)
    (repeat JNull (length texts)).

Definition CHUNK_SIZE : nat := 100.

(** [for (let i = 0; i < texts.length; i += CHUNK_SIZE)
       chunks.push(texts.slice(i, i + CHUNK_SIZE))] *)
Fixpoint chunk_loop {A : Type} (fuel i : nat) (xs : list A) : list (list A) :=
  match fuel with
  | O => []
  | S f =>
      if Nat.ltb i (length xs)
      then slice xs i (i + CHUNK_SIZE) :: chunk_loop f (i + CHUNK_SIZE) xs
      else []
  end.

(** The arguments of the provider calls, in the order they are issued. *)
Definition chunks {A : Type} (xs : list A) : list (list A) :=
  chunk_loop (length xs) 0 xs.

(** [(await Promise.all(chunks.map(getBatchEmbeddings))).flat()] *)
Definition fetch_embeddings (get : list jsval -> list jsval)
    (texts : list jsval) : list jsval :=
  concat (map get (chunks texts)).


(** ** Similarity lookup and result entries *)

(** The [{ data, error }] pair resolved by [supabase.rpc]. *)
Record rpc_result : Type := { rdata : jsval; rerror : jsval }.

(** [supabase.rpc('match_uniclass', { query_embedding, uniclass_type_filter,
    match_threshold, match_count })] *)
Definition match_rpc : Type := jsval -> string -> Q -> Z -> rpc_result.

Record alternative : Type :=
  { alt_code : jsval; alt_title : jsval; alt_confidence : jsval }.

(** A ResultEntry [{ request_id, match, confidence, alternatives }]. *)
Record result_entry : Type :=
  { request_id : jsval; match_ : string; confidence : jsval;
    alternatives : list alternative }.

(** The failure entries [{ request_id, match: <sentinel>, confidence: 0,
    alternatives: [] }]. *)
Definition sentinel (rid : jsval) (msg : string) : result_entry :=
  {| request_id := rid; match_ := msg; confidence := JNum 0;
     alternatives := [] |}.

(** The [switch (output_format.toUpperCase())] on the best candidate
    together with the template literal that prints it. *)
Definition render_match (fmt : string) (best : jsval) : exc string :=
  if String.eqb fmt "CODE" then
    c <- member best (KName "code") ;; Ok (js_to_string c)
  else if String.eqb fmt "TITLE" then
    t <- member best (KName "title") ;; Ok (js_to_string t)
  else
    c <- member best (KName "code") ;;
    t <- member best (KName "title") ;;
    Ok (js_to_string c ++ ":" ++ js_to_string t).

(** [item => ({ code: item.code, title: item.title,
    confidence: item.similarity })] *)
Definition to_alternative (item : jsval) : exc alternative :=
  c <- member item (KName "code") ;;
  t <- member item (KName "title") ;;
  s <- member item (KName "similarity") ;;
  Ok {| alt_code := c; alt_title := t; alt_confidence := s |}.

(** [data.slice(1).map(...)]: only arrays have both methods. *)
Definition rest_alternatives (data : jsval) : exc (list alternative) :=
  match data with
  | JArr xs => mapM to_alternative (tl xs)
  | _ => Throw
  end.

(** The body of the per-query [try] block of [src/unnamed/part_002]
    (lines 105-131); the parallel handler of [src/unnamed/part_000]
    (lines 58-92) runs the same statements with [return] for [push]. *)
Definition lookup_entry (rpc : match_rpc)
    (rid output_format uniclass_type emb : jsval) : exc result_entry :=
  if negb (truthy emb) then Ok (sentinel rid "Embedding failed:0.00") else
  filter <- js_toUpperCase uniclass_type ;;
  let r := rpc emb filter (1 # 10) 3%Z in
  if truthy (rerror r) then Ok (sentinel rid "Database error:0.00") else
  let data := rdata r in
  if negb (truthy data) then Ok (sentinel rid "No match found:0.00") else
  len <- member data (KName "length") ;;
  if strict_eq_num len 0 then Ok (sentinel rid "No match found:0.00") else
  best <- member data (KIdx 0) ;;
  fmt <- js_toUpperCase output_format ;;
  result_text <- render_match fmt best ;;
  sim <- member best (KName "similarity") ;;
  score <- js_toFixed2 sim ;;
  alts <- rest_alternatives data ;;
  Ok {| request_id := rid; match_ := result_text ++ ":" ++ score;
        confidence := sim; alternatives := alts |}.

(** [const { uniclass_type, output_format = 'COBIE', request_id } = query]:
    throws on [null] and [undefined]. *)
Definition destructure_query (q : jsval) : exc (jsval * jsval * jsval) :=
  ut <- member q (KName "uniclass_type") ;;
  of <- member q (KName "output_format") ;;
  rid <- member q (KName "request_id") ;;
  Ok (ut, match of with JUndef => JStr "COBIE" | _ => of end, rid).

(** [request_id || i] *)
Definition effective_id (rid : jsval) (i : nat) : jsval :=
  js_or rid (num_of_nat i).

(** One iteration of the sequential loop of [src/unnamed/part_002]
    (lines 101-137): the destructuring is outside the [try], every exception
    inside it becomes the ['Processing error:0.00'] entry. *)
Definition process_item_seq (rpc : match_rpc) (i : nat) (q emb : jsval)
    : exc result_entry :=
  d <- destructure_query q ;;
  let '(ut, of, rid0) := d in
  let rid := effective_id rid0 i in
  Ok (catch (lookup_entry rpc rid of ut emb)
        (sentinel rid "Processing error:0.00")).

(** The async callback of [queries.map] in [src/unnamed/part_000]
    (lines 54-93): no [try]; an exception rejects its promise. *)
Definition process_item_par (rpc : match_rpc) (i : nat) (q emb : jsval)
    : exc result_entry :=
  d <- destructure_query q ;;
  let '(ut, of, rid0) := d in
  lookup_entry rpc (effective_id rid0 i) of ut emb.

(** ** Requests and responses *)

Record request : Type := { method : string; body : jsval }.

Inductive response : Type :=
| RespPreflight
| Resp405
| Resp400 (msg : string)
| Resp500 (msg : string)
| Resp200 (processed : nat) (results : list result_entry).

(** [!queries || !Array.isArray(queries) || queries.length === 0] fails. *)
Definition valid_batch (queries : jsval) : option (list jsval) :=
  match queries with
  | JArr ((_ :: _) as qs) => Some qs
  | _ => None
  end.

(** Whether [ToString] of an element succeeds inside [Array.prototype.join]
    ([null] and [undefined] are joined as the empty string without it).  An
    object parsed from JSON whose own keys include ["toString"] makes
    [OrdinaryToPrimitive] fail: that own value is not callable and
    [Object.prototype.valueOf] returns the object itself, so a [TypeError] is
    thrown.  Any other object prints as ["[object Object]"]; an array prints
    through its own [join], element by element. *)
Fixpoint join_safe (v : jsval) : bool :=
  match v with
  | JObj fs => negb (existsb (fun kv => String.eqb (fst kv) "toString") fs)
  | JArr xs =>
      (fix go (l : list jsval) : bool :=
         match l with [] => true | x :: r => join_safe x && go r end) xs
  | _ => true
  end.

(** [embeddings[k].slice(0, 5).join(', ')]: only arrays have both methods,
    and [join] converts each of the first five elements to a string. *)
Definition snippet (v : jsval) : exc unit :=
  match v with
  | JArr xs => if forallb join_safe (slice xs 0 5) then Ok tt else Throw
  | _ => Throw
  end.

(** The forensic logging block of [src/unnamed/part_002] (lines 83-97). *)
Definition forensic_log (embeddings : list jsval) : exc unit :=
  if Nat.ltb 1 (length embeddings) && truthy (nth_js embeddings 0)
     && truthy (nth_js embeddings 1)
  then _ <- snippet (nth_js embeddings 0) ;;
       _ <- snippet (nth_js embeddings 1) ;; Ok tt
  else Ok tt.

(** [handler] of [src/unnamed/part_002]: chunked embeddings, then one
    similarity lookup per query in a sequential loop. *)
Definition handler_seq (provider : list jsval -> provider_response)
    (rpc : match_rpc) (req : request) : response :=
  if String.eqb (method req) "OPTIONS" then RespPreflight
  else if negb (String.eqb (method req) "POST") then Resp405
  else catch
    (queries <- member (body req) (KName "queries") ;;
     match valid_batch queries with
     | None => Ok (Resp400 "Missing or invalid queries array")
     | Some qs =>
         texts <- mapM (fun q => member q (KName "query")) qs ;;
         let embeddings :=
           fetch_embeddings (getBatchEmbeddings provider) texts in
         _ <- forensic_log embeddings ;;
         results <- mapiM
           (fun i q => process_item_seq rpc i q (nth_js embeddings i)) qs ;;
         Ok (Resp200 (length results) results)
     end)
    (Resp500 "Internal server error").

(** ** The parallel dispatch handler *)

(** The comparator [(a, b) => a.request_id - b.request_id]; a NaN result
    counts as [+0]. *)
Definition compare_request_id (a b : result_entry) : comparison :=
  match to_number (request_id a), to_number (request_id b) with
  | JNum x, JNum y => Qcompare x y
  | _, _ => Eq
  end.

(** [Array.prototype.sort] as a stable insertion sort.  For a consistent
    comparator every conforming engine returns this stable order; when the
    comparator is inconsistent (NaN differences) the order is
    implementation-defined and the model fixes this one. *)
Fixpoint insert_by {A : Type} (cmp : A -> A -> comparison) (x : A)
    (l : list A) : list A :=
  match l with
  | [] => [x]
  | y :: r =>
      match cmp x y with
      | Gt => y :: insert_by cmp x r
      | _ => x :: y :: r
      end
  end.

Fixpoint sort_by {A : Type} (cmp : A -> A -> comparison) (l : list A)
  : list A :=
  match l with
  | [] => []
  | x :: r => insert_by cmp x (sort_by cmp r)
  end.

(** [handler] of [src/unnamed/part_000]: chunked embeddings, then all
    lookups dispatched together and joined with [Promise.all], then the
    results sorted on [request_id]. *)
Definition handler_par (provider : list jsval -> provider_response)
    (rpc : match_rpc) (req : request) : response :=
  if String.eqb (method req) "OPTIONS" then RespPreflight
  else if negb (String.eqb (method req) "POST") then Resp405
  else catch
    (queries <- member (body req) (KName "queries") ;;
     match valid_batch queries with
     | None => Ok (Resp400 "Missing or invalid queries array")
     | Some qs =>
         texts <- mapM (fun q => member q (KName "query")) qs ;;
         let embeddings :=
           fetch_embeddings (getBatchEmbeddings_v2 provider) texts in
         results <- promise_all
           (mapi (fun i q => process_item_par rpc i q (nth_js embeddings i))
              qs) ;;
         let sortedResults := sort_by compare_request_id results in
         Ok (Resp200 (length sortedResults) sortedResults)
     end)
    (Resp500 "Internal server error").

(** ** The batched-lookup handler *)

(** The [{ data, error }] pair of [supabase.rpc('batch_match_uniclass',
    { p_request_ids, p_query_embeddings, p_uniclass_type_filters })]; the
    serialised vectors ([JSON.stringify]) are passed as the vectors. *)
Record batch_rpc_result : Type := { bdata : jsval; berror : jsval }.

Definition batch_match_rpc : Type :=
  list jsval -> list jsval -> list string -> batch_rpc_result.

(** The [queries.forEach] body collecting the lookup arguments (lines
    321-330 of [src/api/batch-match-uniclass.js]). *)
Definition prepare_query (embeddings : list jsval) (i : nat) (q : jsval)
    : exc (list (jsval * jsval * string)) :=
  let e := nth_js embeddings i in
  if truthy e then
    rid <- member q (KName "request_id") ;;
    ut <- member q (KName "uniclass_type") ;;
    f <- js_toUpperCase ut ;;
    Ok [(to_number (effective_id rid i), e, f)]
  else Ok [].

Definition canonical_index (s : string) : option nat :=
  match parse_digits s 0 with
  | Some n => if String.eqb (show_N n) s then Some (N.to_nat n) else None
  | None => None
  end.

(** [ToPropertyKey] of a value used as [queries[v]]. *)
Definition property_key (v : jsval) : key :=
  match v with
  | JNum q =>
      let z := Qfloor q in
      if Qeq_bool q (inject_Z z) && Z.leb 0 z then KIdx (Z.to_nat z)
      else KName (number_to_string q)
  | JStr s =>
      match canonical_index s with Some n => KIdx n | None => KName s end
  | _ =>
      let s := js_to_string v in
      match canonical_index s with Some n => KIdx n | None => KName s end
  end.

(** [v?.k] *)
Definition opt_member (v : jsval) (k : key) : exc jsval :=
  match v with JUndef | JNull => Ok JUndef | _ => member v k end.

(** [queries[item.request_id]?.output_format?.toUpperCase() || 'COBIE'] *)
Definition batch_output_format (qs : list jsval) (rid : jsval) : exc string :=
  q <- member (JArr qs) (property_key rid) ;;
  of <- opt_member q (KName "output_format") ;;
  match of with
  | JUndef | JNull => Ok "COBIE"
  | _ => s <- js_toUpperCase of ;; Ok (if String.eqb s "" then "COBIE" else s)
  end.

(** SameValueZero on the number values used as keys of [resultsMap]. *)
Definition same_value_zero (a b : jsval) : bool :=
  match a, b with
  | JNum x, JNum y => Qeq_bool x y
  | JNaN, JNaN => true
  | _, _ => false
  end.

(** [Map.prototype.set]: a present key keeps its place, its value is
    replaced. *)
Fixpoint map_set (k : jsval) (v : result_entry)
    (m : list (jsval * result_entry)) : list (jsval * result_entry) :=
  match m with
  | [] => [(k, v)]
  | (k', v') :: r =>
      if same_value_zero k k' then (k', v) :: r else (k', v') :: map_set k v r
  end.

Fixpoint map_get (k : jsval) (m : list (jsval * result_entry))
  : option result_entry :=
  match m with
  | [] => None
  | (k', v) :: r => if same_value_zero k k' then Some v else map_get k r
  end.

(** The [batchData.forEach] body (lines 344-357). *)
Definition batch_item (qs : list jsval) (m : list (jsval * result_entry))
    (item : jsval) : exc (list (jsval * result_entry)) :=
  rid <- member item (KName "request_id") ;;
  output_format <- batch_output_format qs rid ;;
  result_text <- render_match output_format item ;;
  sim <- member item (KName "similarity") ;;
  score <- js_toFixed2 sim ;;
  let k := to_number rid in
  Ok (map_set k {| request_id := k; match_ := result_text ++ ":" ++ score;
                   confidence := sim; alternatives := [] |} m).

Fixpoint foldM {A B : Type} (f : A -> B -> exc A) (a : A) (l : list B)
  : exc A :=
  match l with
  | [] => Ok a
  | x :: r => a' <- f a x ;; foldM f a' r
  end.

(** The [queries.map] building [finalResults] (lines 359-365). *)
Definition final_entry (embeddings : list jsval)
    (m : list (jsval * result_entry)) (i : nat) (q : jsval)
    : exc result_entry :=
  rid <- member q (KName "request_id") ;;
  let requestId := to_number (effective_id rid i) in
  match map_get requestId m with
  | Some e => Ok e
  | None =>
      Ok (sentinel requestId
            (if truthy (nth_js embeddings i) then "No match found:0.00"
             else "Embedding failed:0.00"))
  end.

(** The last [handler] of [src/api/batch-match-uniclass.js] (lines
    293-373): one batched similarity call for all embedded queries. *)
Definition handler_batch (provider : list jsval -> provider_response)
    (brpc : batch_match_rpc) (req : request) : response :=
  if String.eqb (method req) "OPTIONS" then RespPreflight
  else if negb (String.eqb (method req) "POST") then Resp405
  else catch
    (queries <- member (body req) (KName "queries") ;;
     match valid_batch queries with
     | None => Ok (Resp400 "Missing or invalid queries array")
     | Some qs =>
         texts <- mapM (fun q => member q (KName "query")) qs ;;
         let embeddings :=
           fetch_embeddings (getBatchEmbeddings_v2 provider) texts in
         prep <- mapiM (prepare_query embeddings) qs ;;
         let prep := concat prep in
         let r := brpc (map (fun p => fst (fst p)) prep)
                       (map (fun p => snd (fst p)) prep)
                       (map snd prep) in
         if truthy (berror r)
         then Ok (Resp500 "Database batch processing failed")
         else
           items <- match bdata r with JArr xs => Ok xs | _ => Throw end ;;
           m <- foldM (batch_item qs) [] items ;;
           finalResults <- mapiM (final_entry embeddings m) qs ;;
           Ok (Resp200 (length finalResults) finalResults)
     end)
    (Resp500 "Internal server error").

(** ** The unchunked handler with a batch cap *)

(** [getBatchEmbeddings] of [src/unnamed/part_001] (lines 154-196): the
    whole array, or [null] on any failure. *)
Definition getBatchEmbeddings_single
    (provider : list jsval -> provider_response) (texts : list jsval)
    : jsval :=
  catch
    (match provider texts with
     | PFail => Throw
     | PJson data =>
         embs <- member data (KName "embeddings") ;;
         match embs with
         | JArr xs =>
             vs <- mapM (fun emb => member emb (KName "values")) xs ;;
             Ok (JArr vs)
         | _ => Throw
         end
     end)
    JNull.

(** [handler] of [src/unnamed/part_001]; its loop body (lines 52-135) is
    the one of [process_item_seq] (it also reads [query], which cannot
    throw where the other reads do not). *)
Definition handler_capped (provider : list jsval -> provider_response)
    (rpc : match_rpc) (req : request) : response :=
  if String.eqb (method req) "OPTIONS" then RespPreflight
  else if negb (String.eqb (method req) "POST") then Resp405
  else catch
    (queries <- member (body req) (KName "queries") ;;
     match valid_batch queries with
     | None => Ok (Resp400 "Missing or invalid queries array")
     | Some qs =>
         if Nat.ltb 200 (length qs)
         then Ok (Resp400 "Maximum 200 queries per batch")
         else
           texts <- mapM (fun q => member q (KName "query")) qs ;;
           match getBatchEmbeddings_single provider texts with
           | JArr es =>
               if Nat.eqb (length es) (length texts) then
                 results <- mapiM
                   (fun i q => process_item_seq rpc i q (nth_js es i)) qs ;;
                 Ok (Resp200 (length results) results)
               else Ok (Resp500 "Failed to get batch embeddings")
           | _ => Ok (Resp500 "Failed to get batch embeddings")
           end
     end)
    (Resp500 "Internal server error").

(** ** The single-query handler *)

(** [getEmbedding] of [src/api/match-uniclass.js] (lines 93-118): one
    provider call for one text; [data.embedding?.values || null], and [null]
    on any failure. *)
Definition getEmbedding (provider : jsval -> provider_response) (text : jsval)
    : jsval :=
  catch
    (match provider text with
     | PFail => Throw
     | PJson data =>
         emb <- member data (KName "embedding") ;;
         vals <- opt_member emb (KName "values") ;;
         Ok (js_or vals JNull)
     end)
    JNull.

(** The responses of the single-query handler; a 200 answer is the object
    [{ match, confidence, alternatives }]. *)
Inductive single_response : Type :=
| SPreflight
| S405
| S400 (msg : string)
| S500 (msg : string)
| S200 (m : string) (conf : jsval) (alts : list alternative).

(** [handler] of [src/api/match-uniclass.js] (lines 3-91). *)
Definition handler_single (provider : jsval -> provider_response)
    (rpc : match_rpc) (req : request) : single_response :=
  if String.eqb (method req) "OPTIONS" then SPreflight
  else if negb (String.eqb (method req) "POST") then S405
  else catch
    (query <- member (body req) (KName "query") ;;
     uniclass_type <- member (body req) (KName "uniclass_type") ;;
     of <- member (body req) (KName "output_format") ;;
     let output_format := match of with JUndef => JStr "COBIE" | _ => of end in
     if negb (truthy query) || negb (truthy uniclass_type)
     then Ok (S400 "Missing query or uniclass_type") else
     let queryEmbedding := getEmbedding provider query in
     if negb (truthy queryEmbedding)
     then Ok (S500 "Failed to get embedding") else
     filter <- js_toUpperCase uniclass_type ;;
     let r := rpc queryEmbedding filter (1 # 10) 3%Z in
     if truthy (rerror r) then Ok (S500 "Database search failed") else
     let data := rdata r in
     if negb (truthy data) then Ok (S200 "No match found:0.00" (JNum 0) [])
     else
     len <- member data (KName "length") ;;
     if strict_eq_num len 0 then Ok (S200 "No match found:0.00" (JNum 0) [])
     else
     best <- member data (KIdx 0) ;;
     fmt <- js_toUpperCase output_format ;;
     result_text <- render_match fmt best ;;
     sim <- member best (KName "similarity") ;;
     score <- js_toFixed2 sim ;;
     alts <- rest_alternatives data ;;
     Ok (S200 (result_text ++ ":" ++ score) sim alts))
    (S500 "Internal server error").

(** ** The first handler of batch-match-uniclass.js *)

(** [embeddings[k]?.slice(0, 5).join(', ')] *)
Definition opt_snippet (v : jsval) : exc unit :=
  match v with JUndef | JNull => Ok tt | _ => snippet v end.

(** The forensic logging block of the first [handler] of
    [src/api/batch-match-uniclass.js] (lines 82-98): the first, second and
    last vectors are read with optional chaining. *)
Definition forensic_log_v1 (embeddings : list jsval) : exc unit :=
  if Nat.ltb 1 (length embeddings) then
    _ <- opt_snippet (nth_js embeddings 0) ;;
    _ <- opt_snippet (nth_js embeddings 1) ;;
    _ <- opt_snippet (nth_js embeddings (length embeddings - 1)) ;;
    Ok tt
  else Ok tt.

(** The first [handler] of [src/api/batch-match-uniclass.js] (lines 51-135),
    with the [getBatchEmbeddings] of lines 4-48, whose outcomes are those of
    [getBatchEmbeddings] above (the [task_type] field only changes the
    request sent to the provider); its loop (lines 102-129) is the one of
    [process_item_seq]. *)
Definition handler_seq_v1 (provider : list jsval -> provider_response)
    (rpc : match_rpc) (req : request) : response :=
  if String.eqb (method req) "OPTIONS" then RespPreflight
  else if negb (String.eqb (method req) "POST") then Resp405
  else catch
    (queries <- member (body req) (KName "queries") ;;
     match valid_batch queries with
     | None => Ok (Resp400 "Missing or invalid queries array")
     | Some qs =>
         texts <- mapM (fun q => member q (KName "query")) qs ;;
         let embeddings :=
           fetch_embeddings (getBatchEmbeddings provider) texts in
         _ <- forensic_log_v1 embeddings ;;
         results <- mapiM
           (fun i q => process_item_seq rpc i q (nth_js embeddings i)) qs ;;
         Ok (Resp200 (length results) results)
     end)
    (Resp500 "Internal server error").

End Runtime.

(** The identifier a query object supplies, [query.request_id];
    [undefined] when it cannot be read. *)
Definition supplied_id (q : jsval) : jsval :=
  catch (member q (KName "request_id")) JUndef.

(** Instances of the two abstract conversions for the concrete examples
    below, which neither print a number nor convert a non-digit string. *)
Definition example_number_to_string (_ : Q) : string := "".

Definition example_string_to_number (_ : string) : option Q := None.

(** Example collaborators: a provider answering one vector per text, a
    provider that always fails, a store answering two candidates, stores
    reporting an error. *)
Definition example_vector_provider (texts : list jsval) : provider_response :=
  PJson (JObj [("embeddings",
     JArr (map (fun _ => JObj [("values", JArr [JNum 1; JNum 0])]) texts))]).

Definition example_failing_provider (_ : list jsval) : provider_response :=
  PFail.

(** The double nearest to 0.87. *)
Definition sim_087 : Q := 7836263351624663 # 9007199254740992.

Definition example_store : match_rpc := fun _ _ _ _ =>
  {| rdata := JArr [JObj [("code", JStr "Ss_25_10"); ("title", JStr "Walls");
                          ("similarity", JNum sim_087)];
                    JObj [("code", JStr "Ss_25_20");
                          ("title", JStr "Partitions");
                          ("similarity", JNum (1 # 2))]];
     rerror := JNull |}.

Definition example_failing_store : match_rpc := fun _ _ _ _ =>
  {| rdata := JNull; rerror := JObj [("message", JStr "timeout")] |}.

Definition example_failing_batch_store : batch_match_rpc := fun _ _ _ =>
  {| bdata := JNull; berror := JObj [("message", JStr "timeout")] |}.

Definition example_query (rid fmt : jsval) : jsval :=
  JObj [("query", JStr "external wall"); ("uniclass_type", JStr "ss");
        ("output_format", fmt); ("request_id", rid)].

Definition example_request (qs : list jsval) : request :=
  {| method := "POST"; body := JObj [("queries", JArr qs)] |}.

(** A provider answering one vector for one text, rows of the batched
    similarity call, a batched store answering one row for the request id 1,
    a provider whose vectors are strings, a provider answering one vector
    fewer than it is asked for. *)
Definition example_single_provider (_ : jsval) : provider_response :=
  PJson (JObj [("embedding", JObj [("values", JArr [JNum 1; JNum 0])])]).

Definition example_batch_row (rid : jsval) (code title : string) (sim : Q)
    : jsval :=
  JObj [("request_id", rid); ("code", JStr code); ("title", JStr title);
        ("similarity", JNum sim)].

Definition example_batch_store : batch_match_rpc := fun _ _ _ =>
  {| bdata := JArr [example_batch_row (JNum 1) "Ss_25_10" "Walls" sim_087];
     berror := JNull |}.

Definition example_string_vector_provider (texts : list jsval)
    : provider_response :=
  PJson (JObj [("embeddings",
     JArr (map (fun _ => JObj [("values", JStr "v")]) texts))]).

Definition example_short_provider (texts : list jsval) : provider_response :=
  PJson (JObj [("embeddings",
     JArr (map (fun _ => JObj [("values", JArr [JNum 1; JNum 0])])
             (tl texts)))]).

Definition example_single_request (b : jsval) : request :=
  {| method := "POST"; body := b |}.

(** ** Shapes of result entries *)

(** The four failure strings of the per-query entries. *)
Definition failure_messages : list string :=
  ["Embedding failed:0.00"; "Database error:0.00"; "No match found:0.00";
   "Processing error:0.00"].

(** A ResultEntry is a failure entry (a sentinel with confidence 0 and no
    alternatives) or a success entry whose match string ends in a colon and
    the [toFixed(2)] rendering of its confidence. *)
Definition entry_shape (e : result_entry) : Prop :=
  (exists msg, In msg failure_messages /\ e = sentinel (request_id e) msg) \/
  (exists r score, js_toFixed2 (confidence e) = Ok score /\
                   match_ e = r ++ ":" ++ score).

(** A value whose properties can be read: neither [null] nor [undefined]. *)
Definition nonnullish (v : jsval) : Prop := v <> JUndef /\ v <> JNull.

(** A row of the similarity store with a string code and title and a number
    similarity. *)
Definition candidate_row (c : jsval) (code title : string) (sim : Q) : Prop :=
  member c (KName "code") = Ok (JStr code) /\
  member c (KName "title") = Ok (JStr title) /\
  member c (KName "similarity") = Ok (JNum sim).

(** The entry of [data.slice(1).map(...)] for a well-formed row. *)
Definition row_alternative (code title : string) (sim : Q) : alternative :=
  {| alt_code := JStr code; alt_title := JStr title; alt_confidence := JNum sim |}.

(** The comparison [<=] used to state that a list is sorted. *)
Definition not_gt {A : Type} (cmp : A -> A -> comparison) (a b : A) : Prop :=
  cmp a b <> Gt.

(** A vector as the provider answers it: missing ([null] or [undefined]) or
    an array of numbers. *)
Definition vector_or_missing (e : jsval) : Prop :=
  e = JNull \/ e = JUndef \/
  exists xs, e = JArr xs /\ Forall (fun x => exists q, x = JNum q) xs.

(** The entries of [resultsMap]: an entry carries the key it is stored
    under (up to SameValueZero) and no alternatives. *)
Definition results_map_inv (k : jsval) (e : result_entry) : Prop :=
  same_value_zero (request_id e) k = true /\ alternatives e = [].

(** ** General lemmas *)

Open Scope nat_scope.

Lemma mapM_length {A B : Type} (f : A -> exc B) (l : list A) (r : list B) :
  mapM f l = Ok r -> length r = length l.
Proof.
  revert r; induction l as [|x l IH]; intros r H; simpl in H.
  - injection H as <-; reflexivity.
  - destruct (f x); [|discriminate]. simpl in H.
    destruct (mapM f l) eqn:E; [|discriminate]. simpl in H.
    injection H as <-. simpl. f_equal. apply IH. reflexivity.
Qed.

Lemma mapiM_from_length {A B : Type} (f : nat -> A -> exc B) (l : list A) :
  forall i r, mapiM_from f i l = Ok r -> length r = length l.
Proof.
  induction l as [|x l IH]; intros i r H; simpl in H.
  - injection H as <-; reflexivity.
  - destruct (f i x); [|discriminate]. simpl in H.
    destruct (mapiM_from f (S i) l) eqn:E; [|discriminate]. simpl in H.
    injection H as <-. simpl. f_equal. eapply IH. exact E.
Qed.

Lemma mapi_from_length {A B : Type} (f : nat -> A -> B) (l : list A) :
  forall i, length (mapi_from f i l) = length l.
Proof. induction l; intros; simpl; auto. Qed.

Lemma insert_by_perm {A : Type} (cmp : A -> A -> comparison) x l :
  Permutation (insert_by cmp x l) (x :: l).
Proof.
  induction l as [|y l IH]; simpl; [reflexivity|].
  destruct (cmp x y); try reflexivity.
  rewrite IH. apply perm_swap.
Qed.

Lemma sort_by_perm {A : Type} (cmp : A -> A -> comparison) l :
  Permutation (sort_by cmp l) l.
Proof.
  induction l as [|x l IH]; simpl; [reflexivity|].
  rewrite insert_by_perm. now apply perm_skip.
Qed.

(** Chunking. *)

Lemma chunk_loop_concat {A : Type} (xs : list A) :
  forall fuel i, length xs - i <= fuel ->
  concat (chunk_loop fuel i xs) = skipn i xs.
Proof.
  induction fuel as [|f IH]; intros i Hf; simpl.
  - symmetry. apply skipn_all2. lia.
  - destruct (Nat.ltb_spec i (length xs)) as [Hi|Hi]; simpl.
    + rewrite IH by (unfold CHUNK_SIZE; lia).
      unfold slice. replace (i + CHUNK_SIZE - i) with CHUNK_SIZE by lia.
      rewrite Nat.add_comm, <- skipn_skipn. apply firstn_skipn.
    + symmetry. apply skipn_all2. lia.
Qed.

Lemma chunk_loop_nth {A : Type} (xs : list A) :
  forall k fuel i, length xs - i <= fuel -> i + CHUNK_SIZE * k < length xs ->
  nth_error (chunk_loop fuel i xs) k =
  Some (slice xs (i + CHUNK_SIZE * k) (i + CHUNK_SIZE * k + CHUNK_SIZE)).
Proof.
  induction k as [|k IH]; intros fuel i Hf Hk; destruct fuel as [|f];
    unfold CHUNK_SIZE in *; try lia; simpl.
  - destruct (Nat.ltb_spec i (length xs)); [|lia]. simpl.
    now rewrite Nat.add_0_r.
  - destruct (Nat.ltb_spec i (length xs)); [|lia]. simpl.
    rewrite IH by (unfold CHUNK_SIZE; lia).
    unfold CHUNK_SIZE. do 2 f_equal; lia.
Qed.

Lemma chunk_loop_sizes {A : Type} (xs : list A) :
  forall fuel i,
  Forall (fun c => c <> [] /\ length c <= CHUNK_SIZE) (chunk_loop fuel i xs).
Proof.
  induction fuel as [|f IH]; intros i; simpl; [constructor|].
  destruct (Nat.ltb_spec i (length xs)); [|constructor].
  constructor; [|apply IH].
  unfold slice, CHUNK_SIZE. rewrite length_firstn, length_skipn. split.
  - intros E. apply (f_equal (@length A)) in E.
    rewrite length_firstn, length_skipn in E. simpl in E. lia.
  - lia.
Qed.

(** Flattening the chunk results of a length-preserving fetch. *)
Lemma chunk_loop_flat_nth (g : list jsval -> list jsval) (xs : list jsval) :
  (forall c, length (g c) = length c) ->
  forall k fuel i r, length xs - i <= fuel -> r < CHUNK_SIZE ->
  i + CHUNK_SIZE * k + r < length xs ->
  nth_error (concat (map g (chunk_loop fuel i xs))) (CHUNK_SIZE * k + r) =
  nth_error (g (slice xs (i + CHUNK_SIZE * k)
                  (i + CHUNK_SIZE * k + CHUNK_SIZE))) r.
Proof.
  intros Hg. induction k as [|k IH]; intros fuel i r Hf Hr Hk;
    destruct fuel as [|f]; unfold CHUNK_SIZE in *; try lia; cbn [chunk_loop];
    (destruct (Nat.ltb_spec i (length xs)); [|lia]); cbn [map concat];
    unfold CHUNK_SIZE in *.
  - rewrite !Nat.add_0_r. apply nth_error_app1.
    rewrite Hg. unfold slice. rewrite length_firstn, length_skipn. lia.
  - rewrite nth_error_app2;
      rewrite Hg; unfold slice; rewrite length_firstn, length_skipn; [|lia].
    replace (100 * S k + r - Nat.min (i + 100 - i) (length xs - i))
      with (100 * k + r) by lia.
    rewrite IH by (unfold CHUNK_SIZE; lia).
    unfold slice. replace (i + 100 + 100 * k) with (i + 100 * S k) by lia.
    reflexivity.
Qed.

Lemma slice_length {A : Type} (xs : list A) i j :
  length (slice xs i j) = Nat.min (j - i) (length xs - i).
Proof. unfold slice. now rewrite length_firstn, length_skipn. Qed.

Lemma chunk_loop_lengths {A B : Type} (xs : list A) (ys : list B) :
  length xs = length ys -> forall fuel i,
  map (@length A) (chunk_loop fuel i xs) =
  map (@length B) (chunk_loop fuel i ys).
Proof.
  intros E; induction fuel as [|f IH]; intros i; simpl; [reflexivity|].
  rewrite E. destruct (Nat.ltb i (length ys)); simpl; [|reflexivity].
  now rewrite !slice_length, E, IH.
Qed.

Lemma chunks_nth_slice {A : Type} (xs : list A) i :
  i < length xs ->
  nth (i / CHUNK_SIZE) (chunks xs) [] =
  slice xs (CHUNK_SIZE * (i / CHUNK_SIZE))
    (CHUNK_SIZE * (i / CHUNK_SIZE) + CHUNK_SIZE).
Proof.
  intros Hi. unfold chunks.
  pose proof (Nat.Div0.mul_div_le i CHUNK_SIZE) as Hd.
  rewrite (nth_error_nth _ _ _
    (chunk_loop_nth xs (i / CHUNK_SIZE) (length xs) 0 ltac:(lia)
       ltac:(unfold CHUNK_SIZE in *; lia))).
  reflexivity.
Qed.

Lemma getBatchEmbeddings_length provider texts :
  (forall c data es, provider c = PJson data ->
     member data (KName "embeddings") = Ok (JArr es) -> length es = length c) ->
  length (getBatchEmbeddings provider texts) = length texts.
Proof.
  intros Hp. unfold getBatchEmbeddings.
  destruct (provider texts) as [|data] eqn:Ep; simpl;
    [now rewrite repeat_length|].
  destruct (member data (KName "embeddings")) as [embs|] eqn:Em; simpl;
    [|now rewrite repeat_length].
  destruct embs; simpl; try now rewrite repeat_length.
  destruct (mapM _ xs) as [vs|] eqn:Ev; simpl; [|now rewrite repeat_length].
  rewrite (mapM_length _ _ _ Ev). eapply Hp; eauto.
Qed.

Lemma fetch_embeddings_length (g : list jsval -> list jsval) texts :
  (forall c, length (g c) = length c) ->
  length (fetch_embeddings g texts) = length texts.
Proof.
  intros Hg. unfold fetch_embeddings.
  rewrite length_concat, map_map.
  rewrite (map_ext _ _ (fun c => Hg c)).
  rewrite <- length_concat. unfold chunks.
  rewrite chunk_loop_concat by lia. reflexivity.
Qed.

Lemma fetch_embeddings_nth (g : list jsval -> list jsval) texts i :
  (forall c, length (g c) = length c) -> i < length texts ->
  nth_error (fetch_embeddings g texts) i =
  nth_error (g (nth (i / CHUNK_SIZE) (chunks texts) [])) (i mod CHUNK_SIZE).
Proof.
  intros Hg Hi. rewrite chunks_nth_slice by exact Hi.
  unfold fetch_embeddings, chunks.
  rewrite (Nat.div_mod_eq i CHUNK_SIZE) at 1.
  pose proof (Nat.mod_upper_bound i CHUNK_SIZE ltac:(unfold CHUNK_SIZE; lia)).
  pose proof (Nat.div_mod_eq i CHUNK_SIZE).
  rewrite (chunk_loop_flat_nth g texts Hg (i / CHUNK_SIZE) (length texts) 0
             (i mod CHUNK_SIZE)) by lia.
  reflexivity.
Qed.

(** ** Properties of the handlers *)

(** C4.  The chunked embedding fetcher cuts the query texts into contiguous
    chunks of at most 100 texts, in order (250 texts give three provider
    calls of sizes 100, 100 and 50); when the provider answers one vector per
    text, the flattened sequence has exactly one element per query, element
    [i] being the result for query [i] at its place in its chunk; a failed
    chunk call contributes a run of [null] markers as long as the chunk. *)
Theorem chunked_fetch_order_and_length :
  (forall xs : list jsval,
     concat (chunks xs) = xs /\
     Forall (fun c => c <> [] /\ length c <= CHUNK_SIZE) (chunks xs)) /\
  (forall xs : list jsval,
     length xs = 250 -> map (@length jsval) (chunks xs) = [100; 100; 50]) /\
  (forall provider texts,
     (forall c data es, provider c = PJson data ->
        member data (KName "embeddings") = Ok (JArr es) ->
        length es = length c) ->
     length (fetch_embeddings (getBatchEmbeddings provider) texts) =
       length texts /\
     forall i, i < length texts ->
       nth_error (nth (i / CHUNK_SIZE) (chunks texts) []) (i mod CHUNK_SIZE) =
         nth_error texts i /\
       nth_error (fetch_embeddings (getBatchEmbeddings provider) texts) i =
         nth_error (getBatchEmbeddings provider
                      (nth (i / CHUNK_SIZE) (chunks texts) []))
                   (i mod CHUNK_SIZE)) /\
  (forall provider (c : list jsval),
     provider c = PFail -> getBatchEmbeddings provider c = repeat JNull (length c)).
Proof.
  split; [|split; [|split]].
  - intros xs. split.
    + unfold chunks. rewrite chunk_loop_concat by lia. reflexivity.
    + apply chunk_loop_sizes.
  - intros xs H. unfold chunks.
    rewrite (chunk_loop_lengths xs (repeat JUndef 250))
      by now rewrite repeat_length.
    rewrite H. reflexivity.
  - intros provider texts Hp.
    assert (Hg : forall c, length (getBatchEmbeddings provider c) = length c)
      by (intros; now apply getBatchEmbeddings_length).
    split; [now apply fetch_embeddings_length|].
    intros i Hi. split; [|now apply fetch_embeddings_nth].
    rewrite chunks_nth_slice by exact Hi. unfold slice.
    rewrite nth_error_firstn.
    pose proof (Nat.mod_upper_bound i CHUNK_SIZE ltac:(unfold CHUNK_SIZE; lia)).
    pose proof (Nat.div_mod_eq i CHUNK_SIZE).
    destruct (Nat.ltb_spec (i mod CHUNK_SIZE)
                (CHUNK_SIZE * (i / CHUNK_SIZE) + CHUNK_SIZE
                 - CHUNK_SIZE * (i / CHUNK_SIZE))); [|lia].
    rewrite nth_error_skipn. f_equal. lia.
  - intros provider c H. unfold getBatchEmbeddings. now rewrite H.
Qed.

Lemma example_vector_provider_contract :
  forall c data es, example_vector_provider c = PJson data ->
  member data (KName "embeddings") = Ok (JArr es) -> length es = length c.
Proof.
  intros c data es H1 H2. unfold example_vector_provider in H1.
  injection H1 as <-. simpl in H2. injection H2 as <-. apply length_map.
Qed.

Lemma chunked_fetch_order_and_length_witness :
  map (@length jsval) (chunks (repeat JUndef 250)) = [100; 100; 50] /\
  length (fetch_embeddings (getBatchEmbeddings example_vector_provider)
            (repeat (JStr "wall") 250)) = 250.
Proof.
  destruct chunked_fetch_order_and_length as (_ & H250 & Hfetch & _).
  split.
  - apply H250. reflexivity.
  - exact (proj1 (Hfetch example_vector_provider (repeat (JStr "wall") 250)
                    example_vector_provider_contract)).
Defined.

Lemma promise_all_length {A : Type} (ps : list (exc A)) r :
  promise_all ps = Ok r -> length r = length ps.
Proof. apply mapM_length. Qed.

Ltac step_handler :=
  cbn [bind catch]; try discriminate.

Lemma valid_batch_some queries qs :
  valid_batch queries = Some qs -> queries = JArr qs /\ qs <> [].
Proof.
  destruct queries as [| | | | | |[|q0 qs']|]; simpl; intros H;
    try discriminate. injection H as <-. split; [reflexivity|discriminate].
Qed.

Lemma handler_seq_200 nts provider rpc req n rs :
  handler_seq nts provider rpc req = Resp200 n rs ->
  exists qs texts,
    member (body req) (KName "queries") = Ok (JArr qs) /\ qs <> [] /\
    mapM (fun q => member q (KName "query")) qs = Ok texts /\
    forensic_log (fetch_embeddings (getBatchEmbeddings provider) texts)
      = Ok tt /\
    mapiM (fun i q => process_item_seq nts rpc i q
             (nth_js (fetch_embeddings (getBatchEmbeddings provider) texts) i))
      qs = Ok rs /\ n = length rs.
Proof.
  unfold handler_seq.
  destruct (String.eqb (method req) "OPTIONS"); [discriminate|].
  destruct (negb _); [discriminate|].
  destruct (member (body req) (KName "queries")) as [queries|] eqn:Eq;
    step_handler.
  destruct (valid_batch queries) as [qs|] eqn:Ev; step_handler.
  destruct (mapM (fun q => member q (KName "query")) qs) as [texts|] eqn:Et;
    step_handler.
  destruct (forensic_log _) as [[]|] eqn:El; step_handler.
  destruct (mapiM _ _) eqn:E; step_handler.
  intros H; injection H as <- <-.
  destruct (valid_batch_some _ _ Ev) as [-> Hne].
  exists qs, texts. repeat split; auto.
Qed.

Lemma handler_par_200 nts stn provider rpc req n rs :
  handler_par nts stn provider rpc req = Resp200 n rs ->
  exists qs texts results,
    member (body req) (KName "queries") = Ok (JArr qs) /\ qs <> [] /\
    mapM (fun q => member q (KName "query")) qs = Ok texts /\
    promise_all (mapi (fun i q => process_item_par nts rpc i q
        (nth_js (fetch_embeddings (getBatchEmbeddings_v2 provider) texts) i))
      qs) = Ok results /\
    rs = sort_by (compare_request_id nts stn) results /\ n = length rs.
Proof.
  unfold handler_par.
  destruct (String.eqb (method req) "OPTIONS"); [discriminate|].
  destruct (negb _); [discriminate|].
  destruct (member (body req) (KName "queries")) as [queries|] eqn:Eq;
    step_handler.
  destruct (valid_batch queries) as [qs|] eqn:Ev; step_handler.
  destruct (mapM (fun q => member q (KName "query")) qs) as [texts|] eqn:Et;
    step_handler.
  destruct (promise_all _) eqn:E; step_handler.
  intros H; injection H as <- <-.
  destruct (valid_batch_some _ _ Ev) as [-> Hne].
  exists qs, texts, a. repeat split; auto.
Qed.

Lemma handler_batch_200 nts stn provider brpc req n rs :
  handler_batch nts stn provider brpc req = Resp200 n rs ->
  exists qs texts m,
    member (body req) (KName "queries") = Ok (JArr qs) /\ qs <> [] /\
    mapM (fun q => member q (KName "query")) qs = Ok texts /\
    (exists items, foldM (batch_item nts stn qs) [] items = Ok m) /\
    mapiM (final_entry nts stn
             (fetch_embeddings (getBatchEmbeddings_v2 provider) texts) m) qs
      = Ok rs /\ n = length rs.
Proof.
  unfold handler_batch.
  destruct (String.eqb (method req) "OPTIONS"); [discriminate|].
  destruct (negb _); [discriminate|].
  destruct (member (body req) (KName "queries")) as [queries|] eqn:Eq;
    step_handler.
  destruct (valid_batch queries) as [qs|] eqn:Ev; step_handler.
  destruct (mapM (fun q => member q (KName "query")) qs) as [texts|] eqn:Et;
    step_handler.
  destruct (mapiM (prepare_query _ _ _) qs) as [prep|]; step_handler.
  destruct (truthy _); step_handler.
  destruct (bdata _) as [| | | | | |items|]; step_handler.
  destruct (foldM _ _ _) as [m|] eqn:Ef; step_handler.
  destruct (mapiM (final_entry _ _ _ _) qs) eqn:E; step_handler.
  intros H; injection H as <- <-.
  destruct (valid_batch_some _ _ Ev) as [-> Hne].
  exists qs, texts, m. repeat split; eauto.
Qed.

Lemma handler_capped_200 nts provider rpc req n rs :
  handler_capped nts provider rpc req = Resp200 n rs ->
  exists qs texts es,
    member (body req) (KName "queries") = Ok (JArr qs) /\ qs <> [] /\
    length qs <= 200 /\
    mapM (fun q => member q (KName "query")) qs = Ok texts /\
    getBatchEmbeddings_single provider texts = JArr es /\
    mapiM (fun i q => process_item_seq nts rpc i q (nth_js es i)) qs = Ok rs
    /\ n = length rs.
Proof.
  unfold handler_capped.
  destruct (String.eqb (method req) "OPTIONS"); [discriminate|].
  destruct (negb _); [discriminate|].
  destruct (member (body req) (KName "queries")) as [queries|] eqn:Eq;
    step_handler.
  destruct (valid_batch queries) as [qs|] eqn:Ev; step_handler.
  destruct (Nat.ltb_spec 200 (length qs)) as [Hlen|Hlen]; step_handler.
  destruct (mapM (fun q => member q (KName "query")) qs) as [texts|] eqn:Et;
    step_handler.
  destruct (getBatchEmbeddings_single provider texts) eqn:Eg; step_handler.
  destruct (Nat.eqb _ _); step_handler.
  destruct (mapiM _ _) eqn:E; step_handler.
  intros H; injection H as <- <-.
  destruct (valid_batch_some _ _ Ev) as [-> Hne].
  exists qs, texts, xs. repeat split; auto.
Qed.

(** C1.  Whenever a batch of [N] queries passes validation and is answered
    with status 200, the [results] array has exactly [N] entries, in each of
    the four batch handlers (sequential, parallel, batched lookup, capped):
    no failure drops an item. *)
Theorem results_one_entry_per_query :
  forall nts stn provider rpc brpc req qs,
  member (body req) (KName "queries") = Ok (JArr qs) ->
  (forall n rs, handler_seq nts provider rpc req = Resp200 n rs ->
     n = length qs /\ length rs = length qs) /\
  (forall n rs, handler_par nts stn provider rpc req = Resp200 n rs ->
     n = length qs /\ length rs = length qs) /\
  (forall n rs, handler_batch nts stn provider brpc req = Resp200 n rs ->
     n = length qs /\ length rs = length qs) /\
  (forall n rs, handler_capped nts provider rpc req = Resp200 n rs ->
     n = length qs /\ length rs = length qs).
Proof.
  intros nts stn provider rpc brpc req qs Hq.
  split; [|split; [|split]]; intros n rs H.
  - destruct (handler_seq_200 _ _ _ _ _ _ H)
      as (qs' & texts & Hq' & _ & _ & _ & Hr & ->).
    rewrite Hq in Hq'. injection Hq' as <-.
    pose proof (mapiM_from_length _ _ _ _ Hr). auto.
  - destruct (handler_par_200 _ _ _ _ _ _ _ H)
      as (qs' & texts & results & Hq' & _ & _ & Hr & -> & ->).
    rewrite Hq in Hq'. injection Hq' as <-.
    rewrite (Permutation_length (sort_by_perm _ _)).
    rewrite (promise_all_length _ _ Hr). unfold mapi.
    rewrite mapi_from_length. auto.
  - destruct (handler_batch_200 _ _ _ _ _ _ _ H)
      as (qs' & texts & m & Hq' & _ & _ & _ & Hr & ->).
    rewrite Hq in Hq'. injection Hq' as <-.
    pose proof (mapiM_from_length _ _ _ _ Hr). auto.
  - destruct (handler_capped_200 _ _ _ _ _ _ H)
      as (qs' & texts & es & Hq' & _ & _ & _ & _ & Hr & ->).
    rewrite Hq in Hq'. injection Hq' as <-.
    pose proof (mapiM_from_length _ _ _ _ Hr). auto.
Qed.

Lemma results_one_entry_per_query_witness :
  let req := example_request [example_query (JNum 1) (JStr "CODE");
                              example_query JUndef JUndef;
                              JObj [("query", JStr "door")]] in
  match handler_seq example_number_to_string example_vector_provider
          example_store req with
  | Resp200 n rs => n = 3 /\ length rs = 3
  | _ => False
  end /\
  match handler_par example_number_to_string example_string_to_number
          example_vector_provider example_store req with
  | Resp200 n rs => n = 3 /\ length rs = 3
  | _ => True
  end /\
  match handler_batch example_number_to_string example_string_to_number
          example_vector_provider example_failing_batch_store req with
  | Resp200 n rs => n = 3 /\ length rs = 3
  | _ => True
  end /\
  match handler_capped example_number_to_string example_vector_provider
          example_store req with
  | Resp200 n rs => n = 3 /\ length rs = 3
  | _ => False
  end.
Proof.
  intros req.
  destruct (results_one_entry_per_query example_number_to_string
              example_string_to_number example_vector_provider example_store
              example_failing_batch_store req _ eq_refl)
    as (H1 & H2 & H3 & H4).
  split; [|split; [|split]].
  - destruct (handler_seq _ _ _ req) eqn:E;
      try (vm_compute in E; discriminate). exact (H1 _ _ eq_refl).
  - destruct (handler_par _ _ _ _ req) eqn:E; try exact I. exact (H2 _ _ eq_refl).
  - destruct (handler_batch _ _ _ _ req) eqn:E; try exact I.
    exact (H3 _ _ eq_refl).
  - destruct (handler_capped _ _ _ req) eqn:E;
      try (vm_compute in E; discriminate). exact (H4 _ _ eq_refl).
Defined.

(** ** Lemmas on loops, lookups and entries *)

Lemma mapiM_from_nth {A B : Type} (f : nat -> A -> exc B) (l : list A) :
  forall k r, mapiM_from f k l = Ok r ->
  forall i y, nth_error r i = Some y ->
  exists x, nth_error l i = Some x /\ f (k + i) x = Ok y.
Proof.
  induction l as [|x l IH]; intros k r H; simpl in H.
  - injection H as <-. intros i y Hy. destruct i; discriminate.
  - destruct (f k x) as [y0|] eqn:Ef; [|discriminate]. simpl in H.
    destruct (mapiM_from f (S k) l) as [r'|] eqn:E; [|discriminate].
    simpl in H. injection H as <-. intros [|i] y Hy; simpl in Hy.
    + injection Hy as <-. exists x. rewrite Nat.add_0_r. auto.
    + destruct (IH _ _ E i y Hy) as (x' & Hx & Hf).
      exists x'. rewrite Nat.add_succ_r. auto.
Qed.

Lemma mapiM_from_map {A B C : Type} (f : nat -> A -> exc B) (g : B -> C)
    (h : nat -> A -> C) (l : list A) :
  (forall j x y, f j x = Ok y -> g y = h j x) ->
  forall k r, mapiM_from f k l = Ok r -> map g r = mapi_from h k l.
Proof.
  intros Hfg. induction l as [|x l IH]; intros k r H; simpl in H.
  - injection H as <-. reflexivity.
  - destruct (f k x) as [y|] eqn:Ef; [|discriminate]. simpl in H.
    destruct (mapiM_from f (S k) l) as [r'|] eqn:E; [|discriminate].
    simpl in H. injection H as <-. simpl. rewrite (Hfg _ _ _ Ef).
    f_equal. now apply IH.
Qed.

Lemma mapiM_from_Forall {A B : Type} (f : nat -> A -> exc B) (P : B -> Prop)
    (l : list A) :
  (forall j x y, f j x = Ok y -> P y) ->
  forall k r, mapiM_from f k l = Ok r -> Forall P r.
Proof.
  intros Hf. induction l as [|x l IH]; intros k r H; simpl in H.
  - injection H as <-. constructor.
  - destruct (f k x) as [y|] eqn:Ef; [|discriminate]. simpl in H.
    destruct (mapiM_from f (S k) l) as [r'|] eqn:E; [|discriminate].
    simpl in H. injection H as <-. constructor; eauto.
Qed.


Lemma mapM_ok {A B : Type} (f : A -> exc B) (l : list A) :
  (forall x, In x l -> exists y, f x = Ok y) ->
  exists r, mapM f l = Ok r.
Proof.
  induction l as [|x l IH]; intros Hf; simpl; [eauto|].
  destruct (Hf x (or_introl eq_refl)) as [y ->]. simpl.
  destruct (IH (fun x' Hx => Hf x' (or_intror Hx))) as [r ->].
  simpl. eauto.
Qed.

Lemma promise_all_mapi_map {A B C : Type} (f : nat -> A -> exc B) (g : B -> C)
    (h : nat -> A -> C) (l : list A) :
  (forall j x y, f j x = Ok y -> g y = h j x) ->
  forall k r, promise_all (mapi_from f k l) = Ok r -> map g r = mapi_from h k l.
Proof.
  intros Hfg. unfold promise_all.
  induction l as [|x l IH]; intros k r H; simpl in H.
  - injection H as <-. reflexivity.
  - destruct (f k x) as [y|] eqn:Ef; [|discriminate]. simpl in H.
    destruct (mapM _ (mapi_from f (S k) l)) as [r'|] eqn:E; [|discriminate].
    simpl in H. injection H as <-. simpl. rewrite (Hfg _ _ _ Ef).
    f_equal. now apply IH.
Qed.

Lemma promise_all_mapi_Forall {A B : Type} (f : nat -> A -> exc B)
    (P : B -> Prop) (l : list A) :
  (forall j x y, f j x = Ok y -> P y) ->
  forall k r, promise_all (mapi_from f k l) = Ok r -> Forall P r.
Proof.
  intros Hf. unfold promise_all.
  induction l as [|x l IH]; intros k r H; simpl in H.
  - injection H as <-. constructor.
  - destruct (f k x) as [y|] eqn:Ef; [|discriminate]. simpl in H.
    destruct (mapM _ (mapi_from f (S k) l)) as [r'|] eqn:E; [|discriminate].
    simpl in H. injection H as <-. constructor; eauto.
Qed.

Lemma promise_all_mapi_throw {A B : Type} (f : nat -> A -> exc B) (l : list A) :
  forall k i x, nth_error l i = Some x -> f (k + i) x = Throw ->
  promise_all (mapi_from f k l) = Throw.
Proof.
  unfold promise_all.
  induction l as [|y l IH]; intros k i x Hi Hf; [destruct i; discriminate|].
  destruct i as [|i]; simpl in Hi |- *.
  - injection Hi as ->. rewrite Nat.add_0_r in Hf. now rewrite Hf.
  - destruct (f k y); simpl; [|reflexivity].
    rewrite (IH (S k) i x Hi) by (rewrite Nat.add_succ_r in Hf; exact Hf).
    reflexivity.
Qed.

Lemma member_nonnullish v k :
  nonnullish v -> exists r, member v k = Ok r.
Proof.
  intros [H1 H2]. destruct v; try contradiction; simpl; eauto.
  - destruct k as [s0|n]; eauto. destruct s0 as [|c s0]; eauto.
    repeat (match goal with
            | |- exists r, (if ?b then _ else _) = _ => destruct b
            | |- exists r, (match ?c with _ => _ end) = _ => destruct c
            end; eauto).
  - destruct k as [s0|n]; eauto. destruct s0 as [|c s0]; eauto.
    repeat (match goal with
            | |- exists r, (if ?b then _ else _) = _ => destruct b
            | |- exists r, (match ?c with _ => _ end) = _ => destruct c
            end; eauto).
  - destruct k; eauto.
Qed.

Lemma member_ok_nonnullish v k r :
  member v k = Ok r -> nonnullish v.
Proof. destruct v; simpl; intros H; try discriminate; split; discriminate. Qed.

Lemma sentinel_shape rid msg :
  In msg failure_messages -> entry_shape (sentinel rid msg).
Proof. intros H. left. exists msg. auto. Qed.

Ltac split_binds H :=
  repeat (cbv zeta in H;
    match type of H with
    | context [bind ?m _] =>
        let E := fresh "E" in
        destruct m eqn:E; cbn [bind] in H; try discriminate H
    | context [if ?b then _ else _] =>
        let E := fresh "E" in destruct b eqn:E
    end).

Ltac close_sentinel :=
  split; [reflexivity|apply sentinel_shape; simpl; tauto].

Lemma lookup_entry_facts nts rpc rid of ut emb e :
  lookup_entry nts rpc rid of ut emb = Ok e ->
  request_id e = rid /\ entry_shape e.
Proof.
  unfold lookup_entry. intros H. split_binds H; cbn [bind] in H;
    try discriminate H; injection H as <-;
    (close_sentinel ||
     (split; [reflexivity|right; do 2 eexists; split;
                          [eassumption|reflexivity]])).
Qed.

Lemma destructure_query_supplied q ut of rid :
  destructure_query q = Ok (ut, of, rid) -> supplied_id q = rid.
Proof.
  unfold destructure_query, supplied_id. intros H.
  destruct (member q (KName "uniclass_type")); [|discriminate].
  destruct (member q (KName "output_format")); [|discriminate].
  destruct (member q (KName "request_id")); [|discriminate].
  cbn [bind] in H. injection H as _ _ <-. reflexivity.
Qed.

Lemma destructure_query_ok q :
  nonnullish q -> exists d, destructure_query q = Ok d.
Proof.
  intros Hq. unfold destructure_query.
  destruct (member_nonnullish q (KName "uniclass_type") Hq) as [a ->].
  destruct (member_nonnullish q (KName "output_format") Hq) as [b ->].
  destruct (member_nonnullish q (KName "request_id") Hq) as [c ->].
  cbn [bind]. eauto.
Qed.

Lemma process_item_seq_facts nts rpc i q emb e :
  process_item_seq nts rpc i q emb = Ok e ->
  request_id e = effective_id (supplied_id q) i /\ entry_shape e.
Proof.
  unfold process_item_seq.
  destruct (destructure_query q) as [[[ut of] rid0]|] eqn:Ed; [|discriminate].
  cbn [bind]. intros H. injection H as <-.
  rewrite (destructure_query_supplied _ _ _ _ Ed).
  destruct (lookup_entry nts rpc (effective_id rid0 i) of ut emb) eqn:El;
    cbn [catch].
  - now apply lookup_entry_facts in El.
  - close_sentinel.
Qed.


Lemma process_item_par_facts nts rpc i q emb e :
  process_item_par nts rpc i q emb = Ok e ->
  request_id e = effective_id (supplied_id q) i /\ entry_shape e.
Proof.
  unfold process_item_par.
  destruct (destructure_query q) as [[[ut of] rid0]|] eqn:Ed; [|discriminate].
  cbn [bind]. intros H.
  rewrite (destructure_query_supplied _ _ _ _ Ed).
  now apply lookup_entry_facts in H.
Qed.

Lemma map_set_Forall (P : result_entry -> Prop) k v m :
  P v -> Forall (fun kv => P (snd kv)) m ->
  Forall (fun kv => P (snd kv)) (map_set k v m).
Proof.
  intros Hv. induction m as [|[k' v'] m IH]; intros Hm; simpl.
  - constructor; auto.
  - inversion Hm; subst. destruct (same_value_zero k k'); constructor; auto.
Qed.

Lemma map_get_Forall (P : result_entry -> Prop) k m e :
  map_get k m = Some e -> Forall (fun kv => P (snd kv)) m -> P e.
Proof.
  induction m as [|[k' v'] m IH]; simpl; intros H Hm; [discriminate|].
  inversion Hm; subst. destruct (same_value_zero k k').
  - now injection H as <-.
  - auto.
Qed.

Lemma batch_item_Forall nts stn qs m item m' :
  batch_item nts stn qs m item = Ok m' ->
  Forall (fun kv => entry_shape (snd kv)) m ->
  Forall (fun kv => entry_shape (snd kv)) m'.
Proof.
  unfold batch_item. intros H Hm. split_binds H; cbn [bind] in H;
    try discriminate H. injection H as <-. apply map_set_Forall; auto.
  right. do 2 eexists. split; [eassumption|reflexivity].
Qed.

Lemma foldM_batch_Forall nts stn qs items :
  forall m m', foldM (batch_item nts stn qs) m items = Ok m' ->
  Forall (fun kv => entry_shape (snd kv)) m ->
  Forall (fun kv => entry_shape (snd kv)) m'.
Proof.
  induction items as [|item items IH]; simpl; intros m m' H Hm.
  - now injection H as <-.
  - destruct (batch_item nts stn qs m item) as [m1|] eqn:E; [|discriminate].
    cbn [bind] in H. eapply IH; [exact H|]. eapply batch_item_Forall; eauto.
Qed.

Lemma final_entry_shape nts stn embs m i q e :
  Forall (fun kv => entry_shape (snd kv)) m ->
  final_entry nts stn embs m i q = Ok e -> entry_shape e.
Proof.
  unfold final_entry. intros Hm H.
  destruct (member q (KName "request_id")) as [rid|]; [|discriminate].
  cbn [bind] in H.
  destruct (map_get _ m) as [e'|] eqn:Eg; injection H as <-.
  - eapply map_get_Forall; eauto.
  - apply sentinel_shape. destruct (truthy _); simpl; tauto.
Qed.

Lemma destructure_query_fields q ut of rid :
  destructure_query q = Ok (ut, of, rid) ->
  member q (KName "uniclass_type") = Ok ut /\
  (exists of0, member q (KName "output_format") = Ok of0 /\
     of = match of0 with JUndef => JStr "COBIE" | _ => of0 end).
Proof.
  unfold destructure_query. intros H.
  destruct (member q (KName "uniclass_type")); [|discriminate].
  destruct (member q (KName "output_format")) as [of0|]; [|discriminate].
  destruct (member q (KName "request_id")); [|discriminate].
  cbn [bind] in H. injection H as <- <- _. eauto.
Qed.

Lemma fetch_embeddings_Forall (P : jsval -> Prop) g texts :
  (forall c, Forall P (g c)) -> Forall P (fetch_embeddings g texts).
Proof.
  intros Hg. unfold fetch_embeddings. apply Forall_forall. intros x Hx.
  apply in_concat in Hx. destruct Hx as (l & Hl & Hx).
  apply in_map_iff in Hl. destruct Hl as (c & <- & _).
  exact (proj1 (Forall_forall _ _) (Hg c) x Hx).
Qed.

Lemma nth_js_Forall (P : jsval -> Prop) l k :
  Forall P l -> k < length l -> P (nth_js l k).
Proof.
  intros HP Hk. unfold nth_js.
  destruct (nth_error l k) as [x|] eqn:E.
  - exact (proj1 (Forall_forall _ _) HP x (nth_error_In _ _ E)).
  - apply nth_error_None in E. lia.
Qed.


Lemma example_vector_provider_embeddings c :
  getBatchEmbeddings_v2 example_vector_provider c =
  repeat (JArr [JNum 1; JNum 0]) (length c).
Proof.
  assert (Hm : mapM (fun emb => member emb (KName "values"))
                 (map (fun _ => JObj [("values", JArr [JNum 1; JNum 0])]) c)
               = Ok (repeat (JArr [JNum 1; JNum 0]) (length c))).
  { induction c as [|x c IH]; [reflexivity|]. cbn. rewrite IH. reflexivity. }
  unfold getBatchEmbeddings_v2, example_vector_provider. cbn.
  rewrite Hm. reflexivity.
Qed.

Lemma snippet_numbers xs :
  Forall (fun x => exists q, x = JNum q) xs -> snippet (JArr xs) = Ok tt.
Proof.
  intros Hxs. unfold snippet.
  replace (forallb join_safe (slice xs 0 5)) with true; [reflexivity|].
  symmetry. apply forallb_forall. intros x Hx.
  unfold slice in Hx. cbn [Nat.sub skipn] in Hx.
  assert (Hin : In x xs)
    by (rewrite <- (firstn_skipn 5 xs); apply in_or_app; left; exact Hx).
  destruct (proj1 (Forall_forall _ _) Hxs x Hin) as [q ->]. reflexivity.
Qed.

Lemma nth_js_array (l : list jsval) k :
  Forall (fun e => truthy e = true -> exists xs, e = JArr xs /\
            Forall (fun x => exists q, x = JNum q) xs) l ->
  truthy (nth_js l k) = true -> exists xs, nth_js l k = JArr xs /\
            Forall (fun x => exists q, x = JNum q) xs.
Proof.
  intros Hl Ht. unfold nth_js in *.
  destruct (nth_error l k) as [x|] eqn:E; [|discriminate].
  exact (proj1 (Forall_forall _ _) Hl x (nth_error_In _ _ E) Ht).
Qed.

Lemma forensic_log_ok embeddings :
  Forall (fun e => truthy e = true -> exists xs, e = JArr xs /\
            Forall (fun x => exists q, x = JNum q) xs) embeddings ->
  forensic_log embeddings = Ok tt.
Proof.
  intros Hl. unfold forensic_log.
  destruct (Nat.ltb 1 (length embeddings) && truthy (nth_js embeddings 0)
            && truthy (nth_js embeddings 1)) eqn:E; [|reflexivity].
  apply andb_true_iff in E as [E E1]. apply andb_true_iff in E as [_ E0].
  destruct (nth_js_array _ _ Hl E0) as (xs0 & -> & H0).
  destruct (nth_js_array _ _ Hl E1) as (xs1 & -> & H1).
  rewrite (snippet_numbers _ H0), (snippet_numbers _ H1). reflexivity.
Qed.

Lemma opt_snippet_ok l k :
  Forall vector_or_missing l -> opt_snippet (nth_js l k) = Ok tt.
Proof.
  intros Hl. unfold nth_js. destruct (nth_error l k) as [x|] eqn:E;
    [|reflexivity].
  destruct (proj1 (Forall_forall _ _) Hl x (nth_error_In _ _ E))
    as [-> | [-> | (xs & -> & Hxs)]]; [reflexivity|reflexivity|].
  exact (snippet_numbers _ Hxs).
Qed.

Lemma forensic_logs_ok embs :
  Forall vector_or_missing embs ->
  forensic_log embs = Ok tt /\ forensic_log_v1 embs = Ok tt.
Proof.
  intros Hl. split.
  - apply forensic_log_ok. eapply Forall_impl; [|exact Hl].
    intros e [-> | [-> | (xs & -> & Hxs)]]; simpl; eauto; discriminate.
  - unfold forensic_log_v1. destruct (Nat.ltb 1 _); [|reflexivity].
    rewrite !opt_snippet_ok by exact Hl. reflexivity.
Qed.


Ltac enter_handler Hm Hq :=
  rewrite Hm; cbn [String.eqb negb Ascii.eqb Bool.eqb];
  rewrite Hq; cbn [bind].

Lemma example_vector_provider_embeddings_seq c :
  getBatchEmbeddings example_vector_provider c =
  repeat (JArr [JNum 1; JNum 0]) (length c).
Proof.
  assert (Hm : mapM (fun emb => member emb (KName "values"))
                 (map (fun _ => JObj [("values", JArr [JNum 1; JNum 0])]) c)
               = Ok (repeat (JArr [JNum 1; JNum 0]) (length c))).
  { induction c as [|x c IH]; [reflexivity|]. cbn. rewrite IH. reflexivity. }
  unfold getBatchEmbeddings, example_vector_provider. cbn.
  rewrite Hm. reflexivity.
Qed.

Lemma strict_eq_num_length n :
  strict_eq_num (num_of_nat n) 0 = Nat.eqb n 0.
Proof.
  unfold strict_eq_num, num_of_nat.
  destruct (Qeq_bool _ _) eqn:E; destruct n as [|n]; try reflexivity.
  - apply Qeq_bool_eq in E. unfold Qeq in E. simpl in E. lia.
  - exfalso. apply Qeq_bool_neq in E. apply E. reflexivity.
Qed.

Lemma render_match_row nts fmt best code title sim :
  candidate_row best code title sim ->
  render_match nts fmt best =
  Ok (if String.eqb fmt "CODE" then code
      else if String.eqb fmt "TITLE" then title
      else code ++ ":" ++ title).
Proof.
  intros (Hc & Ht & _). unfold render_match. rewrite Hc, Ht.
  destruct (String.eqb fmt "CODE"); [reflexivity|].
  destruct (String.eqb fmt "TITLE"); reflexivity.
Qed.

Lemma to_alternative_rows rest :
  Forall (fun c => exists code title sim, candidate_row c code title sim) rest ->
  exists alts, mapM to_alternative rest = Ok alts /\
  Forall2 (fun c a => exists code title sim,
             candidate_row c code title sim /\
             a = row_alternative code title sim) rest alts.
Proof.
  induction 1 as [|c rest (code & title & sim & Hrow) _ (alts & Hm & Hf)].
  - exists []. split; [reflexivity|constructor].
  - exists (row_alternative code title sim :: alts).
    assert (Hx : to_alternative c = Ok (row_alternative code title sim)).
    { destruct Hrow as (Hc & Ht & Hs). unfold to_alternative.
      rewrite Hc, Ht, Hs. reflexivity. }
    cbn [mapM]. rewrite Hx. cbn [bind]. rewrite Hm. cbn [bind].
    split; [reflexivity|].
    constructor; [|exact Hf]. exists code, title, sim. split; auto.
Qed.

Lemma toFixed2_digits (x : Q) :
  (0 <= x)%Q ->
  exists ip d1 d2 : N,
    (d1 < 10)%N /\ (d2 < 10)%N /\
    toFixed2 x = (show_N ip ++ "." ++
                  String (digit_char d1) (String (digit_char d2) ""))%string /\
    (100 * x - (1 # 2) < inject_Z (Z.of_N (100 * ip + 10 * d1 + d2)))%Q /\
    (inject_Z (Z.of_N (100 * ip + 10 * d1 + d2)) <= 100 * x + (1 # 2))%Q.
Proof.
  intros Hx. unfold toFixed2.
  replace (Qle_bool 0 x) with true by (symmetry; now apply Qle_bool_iff).
  cbn [negb]. unfold fixed2_nonneg.
  set (z := round_half_up_100 x).
  assert (Hz : (0 <= z)%Z).
  { unfold z, round_half_up_100.
    change 0%Z with (Qfloor 0). apply Qfloor_resp_le. lra. }
  set (n := Z.to_N z).
  exists (n / 100)%N, ((n mod 100) / 10)%N, (n mod 10)%N.
  assert (Hn : (100 * (n / 100) + 10 * ((n mod 100) / 10) + n mod 10 = n)%N).
  { clearbody n.
    pose proof (N.div_mod n 100 ltac:(lia)).
    pose proof (N.mod_lt n 100 ltac:(lia)).
    pose proof (N.div_mod (n mod 100) 10 ltac:(lia)).
    pose proof (N.mod_lt (n mod 100) 10 ltac:(lia)).
    pose proof (N.div_mod n 10 ltac:(lia)).
    pose proof (N.mod_lt n 10 ltac:(lia)).
    set (r := (n mod 100)%N) in *. set (a := (n / 100)%N) in *.
    set (d1 := (r / 10)%N) in *. set (e := (r mod 10)%N) in *.
    set (b := (n / 10)%N) in *. set (d2 := (n mod 10)%N) in *.
    clearbody r a d1 e b d2. lia. }
  split; [|split; [|split; [reflexivity|]]].
  - pose proof (N.mod_lt n 100 ltac:(lia)).
    apply N.Div0.div_lt_upper_bound. lia.
  - apply N.mod_lt. lia.
  - rewrite Hn. unfold n. rewrite Z2N.id by exact Hz.
    unfold z, round_half_up_100.
    pose proof (Qfloor_le (x * 100 + (1 # 2))%Q).
    pose proof (Qlt_floor (x * 100 + (1 # 2))%Q).
    rewrite inject_Z_plus in *.
    set (f := inject_Z (Qfloor _)) in *. change (inject_Z 1) with 1%Q in *.
    clearbody f. split; lra.
Qed.

Lemma insert_by_sorted {A : Type} (cmp : A -> A -> comparison) x l :
  (forall a b, cmp a b = Gt -> cmp b a <> Gt) ->
  Sorted (not_gt cmp) l -> Sorted (not_gt cmp) (insert_by cmp x l).
Proof.
  intros Hanti. induction 1 as [|y l Hl IH Hhd]; simpl.
  - repeat constructor.
  - destruct (cmp x y) eqn:E.
    + constructor; [constructor; auto|constructor; unfold not_gt; congruence].
    + constructor; [constructor; auto|constructor; unfold not_gt; congruence].
    + constructor; [exact IH|].
      destruct l as [|z l]; simpl.
      * constructor. unfold not_gt. now apply Hanti.
      * inversion Hhd; subst.
        destruct (cmp x z); constructor;
          first [assumption | unfold not_gt; now apply Hanti].
Qed.

Lemma sort_by_sorted {A : Type} (cmp : A -> A -> comparison) l :
  (forall a b, cmp a b = Gt -> cmp b a <> Gt) ->
  Sorted (not_gt cmp) (sort_by cmp l).
Proof.
  intros Hanti. induction l as [|x l IH]; simpl; [constructor|].
  now apply insert_by_sorted.
Qed.

Lemma sort_by_sorted_id {A : Type} (cmp : A -> A -> comparison) l :
  Sorted (not_gt cmp) l -> sort_by cmp l = l.
Proof.
  induction 1 as [|x l Hl IH Hhd]; simpl; [reflexivity|].
  rewrite IH. destruct l as [|y l]; simpl; [reflexivity|].
  inversion Hhd; subst. unfold not_gt in *.
  destruct (cmp x y); congruence.
Qed.

Lemma compare_request_id_antisym nts stn a b :
  compare_request_id nts stn a b = Gt -> compare_request_id nts stn b a <> Gt.
Proof.
  unfold compare_request_id.
  destruct (to_number nts stn (request_id a)), (to_number nts stn (request_id b));
    try discriminate; try (intros _; discriminate).
  intros H Hc. apply Qgt_alt in H. apply Qgt_alt in Hc. lra.
Qed.

(** C2 (amended).  In the sequential, capped and parallel handlers the entry
    of the query at position [i] carries [request_id || i]: the identifier
    the query supplies when it is truthy, the position [i] otherwise.  The
    identifiers of a 200 response are exactly these, in input order
    (sequential and capped handlers) or rearranged (parallel handler).  A
    supplied falsy identifier ([0], [""]) is replaced by the position. *)
Theorem request_ids_follow_positions :
  forall nts stn provider rpc req qs,
  member (body req) (KName "queries") = Ok (JArr qs) ->
  (forall n rs, handler_seq nts provider rpc req = Resp200 n rs ->
     map request_id rs = mapi (fun i q => effective_id (supplied_id q) i) qs) /\
  (forall n rs, handler_capped nts provider rpc req = Resp200 n rs ->
     map request_id rs = mapi (fun i q => effective_id (supplied_id q) i) qs) /\
  (forall n rs, handler_par nts stn provider rpc req = Resp200 n rs ->
     Permutation (map request_id rs)
       (mapi (fun i q => effective_id (supplied_id q) i) qs)).
Proof.
  intros nts stn provider rpc req qs Hq.
  split; [|split]; intros n rs H.
  - destruct (handler_seq_200 _ _ _ _ _ _ H)
      as (qs' & texts & Hq' & _ & _ & _ & Hr & _).
    rewrite Hq in Hq'. injection Hq' as <-.
    refine (mapiM_from_map _ _ _ _ _ 0 rs Hr).
    intros j x y Hy. exact (proj1 (process_item_seq_facts _ _ _ _ _ _ Hy)).
  - destruct (handler_capped_200 _ _ _ _ _ _ H)
      as (qs' & texts & es & Hq' & _ & _ & _ & _ & Hr & _).
    rewrite Hq in Hq'. injection Hq' as <-.
    refine (mapiM_from_map _ _ _ _ _ 0 rs Hr).
    intros j x y Hy. exact (proj1 (process_item_seq_facts _ _ _ _ _ _ Hy)).
  - destruct (handler_par_200 _ _ _ _ _ _ _ H)
      as (qs' & texts & results & Hq' & _ & _ & Hr & -> & _).
    rewrite Hq in Hq'. injection Hq' as <-.
    rewrite (Permutation_map request_id (sort_by_perm _ results)).
    rewrite (promise_all_mapi_map _ request_id
               (fun i q => effective_id (supplied_id q) i) qs
               (fun j x y Hy => proj1 (process_item_par_facts _ _ _ _ _ _ Hy))
               0 results Hr).
    reflexivity.
Qed.

Lemma request_ids_follow_positions_witness :
  let req := example_request [example_query (JNum 7) (JStr "CODE");
                              example_query JUndef (JStr "CODE")] in
  match handler_seq example_number_to_string example_vector_provider
          example_store req with
  | Resp200 n rs => map request_id rs = [JNum 7; JNum 1]
  | _ => False
  end.
Proof.
  intros req.
  destruct (request_ids_follow_positions example_number_to_string
              example_string_to_number example_vector_provider example_store
              req _ eq_refl) as (H1 & _ & _).
  destruct (handler_seq _ _ _ req) eqn:E;
    try (vm_compute in E; discriminate).
  rewrite (H1 _ _ eq_refl). vm_compute. reflexivity.
Defined.

(** C2 fails as stated: the supplied identifiers [1] and [0] come back as
    [1] and [1], a duplicate, and [0] is lost, because [0 || 1] is [1]. *)
Lemma request_ids_falsy_id_counterexample :
  match handler_seq example_number_to_string example_vector_provider
          example_store
          (example_request [example_query (JNum 1) (JStr "CODE");
                            example_query (JNum 0) (JStr "CODE")]) with
  | Resp200 n rs => map request_id rs = [JNum 1; JNum 1]
  | _ => False
  end.
Proof. vm_compute. reflexivity. Qed.

(** C9.  Every entry of a 200 response of the four batch handlers is either a
    failure entry, built by [sentinel] from one of 'Embedding failed:0.00',
    'Database error:0.00', 'No match found:0.00' and 'Processing error:0.00'
    and therefore with confidence 0 and an empty alternatives list, or a
    success entry whose match string ends in the two-decimal rendering of its
    confidence. *)
Theorem failure_entries_uniform :
  (forall rid msg, In msg failure_messages ->
     confidence (sentinel rid msg) = JNum 0 /\
     alternatives (sentinel rid msg) = []) /\
  forall nts stn provider rpc brpc req,
  (forall n rs, handler_seq nts provider rpc req = Resp200 n rs ->
     Forall entry_shape rs) /\
  (forall n rs, handler_par nts stn provider rpc req = Resp200 n rs ->
     Forall entry_shape rs) /\
  (forall n rs, handler_batch nts stn provider brpc req = Resp200 n rs ->
     Forall entry_shape rs) /\
  (forall n rs, handler_capped nts provider rpc req = Resp200 n rs ->
     Forall entry_shape rs).
Proof.
  split; [intros; split; reflexivity|].
  intros nts stn provider rpc brpc req.
  split; [|split; [|split]]; intros n rs H.
  - destruct (handler_seq_200 _ _ _ _ _ _ H)
      as (qs & texts & _ & _ & _ & _ & Hr & _).
    refine (mapiM_from_Forall _ _ _ _ 0 rs Hr).
    intros j x y Hy. exact (proj2 (process_item_seq_facts _ _ _ _ _ _ Hy)).
  - destruct (handler_par_200 _ _ _ _ _ _ _ H)
      as (qs & texts & results & _ & _ & _ & Hr & -> & _).
    apply (Permutation_Forall (Permutation_sym (sort_by_perm _ results))).
    refine (promise_all_mapi_Forall _ _ _ _ 0 results Hr).
    intros j x y Hy. exact (proj2 (process_item_par_facts _ _ _ _ _ _ Hy)).
  - destruct (handler_batch_200 _ _ _ _ _ _ _ H)
      as (qs & texts & m & _ & _ & _ & [items Hm] & Hr & _).
    pose proof (foldM_batch_Forall _ _ _ _ _ _ Hm (Forall_nil _)) as HF.
    refine (mapiM_from_Forall _ _ _ _ 0 rs Hr).
    intros j x y Hy. exact (final_entry_shape _ _ _ _ _ _ _ HF Hy).
  - destruct (handler_capped_200 _ _ _ _ _ _ H)
      as (qs & texts & es & _ & _ & _ & _ & _ & Hr & _).
    refine (mapiM_from_Forall _ _ _ _ 0 rs Hr).
    intros j x y Hy. exact (proj2 (process_item_seq_facts _ _ _ _ _ _ Hy)).
Qed.

Lemma failure_entries_uniform_witness :
  (confidence (sentinel (JNum 4) "Database error:0.00") = JNum 0 /\
   alternatives (sentinel (JNum 4) "Database error:0.00") = []) /\
  match handler_seq example_number_to_string example_vector_provider
          example_failing_store
          (example_request [example_query (JNum 4) (JStr "CODE")]) with
  | Resp200 n rs => Forall entry_shape rs
  | _ => False
  end.
Proof.
  destruct failure_entries_uniform as (H0 & Hall).
  split; [apply H0; simpl; tauto|].
  destruct (Hall example_number_to_string example_string_to_number
              example_vector_provider example_failing_store
              example_failing_batch_store
              (example_request [example_query (JNum 4) (JStr "CODE")]))
    as (H1 & _).
  destruct (handler_seq _ _ _ _) eqn:E;
    try (vm_compute in E; discriminate).
  exact (H1 _ _ eq_refl).
Defined.

(** C10.  In the parallel dispatch handler a valid batch whose embeddings all
    succeed but in which one query has no string [uniclass_type] is answered
    with 500 'Internal server error' as a whole: the exception of that one
    lookup rejects the joint [Promise.all]; the sequential handler's loop
    turns the same exception into a 'Processing error:0.00' entry. *)
Theorem parallel_item_exception_aborts_batch :
  forall nts stn provider rpc req qs k q,
  method req = "POST" ->
  member (body req) (KName "queries") = Ok (JArr qs) ->
  Forall nonnullish qs ->
  (forall c, length (getBatchEmbeddings_v2 provider c) = length c /\
     Forall (fun e => truthy e = true) (getBatchEmbeddings_v2 provider c)) ->
  nth_error qs k = Some q ->
  (forall s, member q (KName "uniclass_type") <> Ok (JStr s)) ->
  handler_par nts stn provider rpc req = Resp500 "Internal server error" /\
  (forall emb, truthy emb = true ->
     process_item_seq nts rpc k q emb =
       Ok (sentinel (effective_id (supplied_id q) k) "Processing error:0.00")).
Proof.
  intros nts stn provider rpc req qs k q Hm Hq Hnn Hp Hk Hut.
  assert (Hqn : nonnullish q)
    by exact (proj1 (Forall_forall _ _) Hnn q (nth_error_In _ _ Hk)).
  destruct (destructure_query_ok q Hqn) as [[[ut of] rid] Ed].
  destruct (destructure_query_fields _ _ _ _ Ed) as [Hu _].
  assert (Hthrow : forall emb, truthy emb = true ->
            lookup_entry nts rpc (effective_id rid k) of ut emb = Throw).
  { intros emb He. unfold lookup_entry. rewrite He. cbn [negb].
    destruct ut; try reflexivity. exfalso. exact (Hut s Hu). }
  split.
  - unfold handler_par. rewrite Hm. cbn [String.eqb negb Ascii.eqb Bool.eqb].
    rewrite Hq. cbn [bind].
    destruct qs as [|q0 qs']; [destruct k; discriminate|]. cbn [valid_batch].
    destruct (mapM_ok (fun q => member q (KName "query")) (q0 :: qs'))
      as [texts Ht].
    { intros x Hx. apply member_nonnullish.
      exact (proj1 (Forall_forall _ _) Hnn x Hx). }
    rewrite Ht. cbn [bind].
    unfold mapi. rewrite (promise_all_mapi_throw _ (q0 :: qs') 0 k q Hk).
    + reflexivity.
    + unfold process_item_par. rewrite Ed. cbn [bind]. apply Hthrow.
      apply nth_js_Forall.
      * apply fetch_embeddings_Forall. intros c. apply Hp.
      * rewrite fetch_embeddings_length by (intros c; apply Hp).
        rewrite (mapM_length _ _ _ Ht).
        pose proof (proj1 (nth_error_Some (q0 :: qs') k)
                      ltac:(rewrite Hk; discriminate)).
        simpl in *. lia.
  - intros emb He. unfold process_item_seq. rewrite Ed. cbn [bind].
    rewrite (Hthrow emb He). rewrite (destructure_query_supplied _ _ _ _ Ed).
    reflexivity.
Qed.

Lemma parallel_item_exception_aborts_batch_witness :
  handler_par example_number_to_string example_string_to_number
    example_vector_provider example_store
    (example_request [example_query (JNum 1) (JStr "CODE");
                      JObj [("query", JStr "door")]])
  = Resp500 "Internal server error".
Proof.
  refine (proj1 (parallel_item_exception_aborts_batch
                   example_number_to_string example_string_to_number
                   example_vector_provider example_store
                   (example_request [example_query (JNum 1) (JStr "CODE");
                                     JObj [("query", JStr "door")]])
                   _ 1 (JObj [("query", JStr "door")])
                   eq_refl eq_refl _ _ eq_refl _)).
  - repeat constructor; discriminate.
  - intros c. rewrite example_vector_provider_embeddings.
    split; [apply repeat_length|].
    apply Forall_forall. intros x Hx. apply repeat_spec in Hx.
    subst. reflexivity.
  - intros s0 H. simpl in H. discriminate.
Defined.






Ltac no_400 H Hq Hne :=
  destruct (String.eqb (method _) "OPTIONS"); [discriminate H|];
  destruct (negb _); [discriminate H|];
  rewrite Hq in H; cbn [bind] in H;
  match type of Hne with ?l <> [] => destruct l; [contradiction|] end;
  cbn [valid_batch] in H;
  split_binds H; cbn [catch bind] in H; discriminate H.

(** C8 (amended).  A batch that is absent from a request body, not an array
    or empty is answered with 400 'Missing or invalid queries array' by all
    four handlers.  Only the capped handler has a size limit: a batch of
    more than 200 queries is answered with 400 'Maximum 200 queries per
    batch', whatever the embedding provider and the similarity store would
    do.  The two chunked handlers and the batched-lookup handler never
    answer 400 to a non-empty array of queries, whatever its length. *)
Theorem batch_validation_responses :
  (forall v, valid_batch v = None <-> forall qs, v = JArr qs -> qs = []) /\
  (forall nts stn provider rpc brpc req v,
     method req = "POST" ->
     member (body req) (KName "queries") = Ok v -> valid_batch v = None ->
     handler_seq nts provider rpc req =
       Resp400 "Missing or invalid queries array" /\
     handler_par nts stn provider rpc req =
       Resp400 "Missing or invalid queries array" /\
     handler_batch nts stn provider brpc req =
       Resp400 "Missing or invalid queries array" /\
     handler_capped nts provider rpc req =
       Resp400 "Missing or invalid queries array") /\
  (forall nts provider rpc req qs,
     method req = "POST" ->
     member (body req) (KName "queries") = Ok (JArr qs) ->
     200 < length qs ->
     handler_capped nts provider rpc req =
       Resp400 "Maximum 200 queries per batch") /\
  (forall nts stn provider rpc brpc req qs m,
     member (body req) (KName "queries") = Ok (JArr qs) -> qs <> [] ->
     handler_seq nts provider rpc req <> Resp400 m /\
     handler_par nts stn provider rpc req <> Resp400 m /\
     handler_batch nts stn provider brpc req <> Resp400 m).
Proof.
  split; [|split; [|split]].
  - intros v. split.
    + intros Hv qs ->. destruct qs; [reflexivity|discriminate].
    + intros H. destruct v as [| | | | | |xs|]; try reflexivity.
      now rewrite (H xs eq_refl).
  - intros nts stn provider rpc brpc req v Hm Hq Hv.
    split; [|split; [|split]];
      [unfold handler_seq|unfold handler_par|unfold handler_batch
      |unfold handler_capped];
      enter_handler Hm Hq; rewrite Hv; reflexivity.
  - intros nts provider rpc req qs Hm Hq Hlen.
    unfold handler_capped. enter_handler Hm Hq.
    destruct qs as [|q0 qs']; [simpl in Hlen; lia|]. cbn [valid_batch].
    destruct (Nat.ltb_spec 200 (length (q0 :: qs'))); [reflexivity|lia].
  - intros nts stn provider rpc brpc req qs m Hq Hne.
    split; [|split]; intros H;
      [unfold handler_seq in H|unfold handler_par in H
      |unfold handler_batch in H]; no_400 H Hq Hne.
Qed.

Lemma batch_validation_responses_witness :
  handler_capped example_number_to_string example_vector_provider
    example_store
    (example_request (repeat (example_query (JNum 1) (JStr "CODE")) 201))
  = Resp400 "Maximum 200 queries per batch" /\
  handler_seq example_number_to_string example_vector_provider example_store
    {| method := "POST"; body := JObj [("queries", JArr [])] |}
  = Resp400 "Missing or invalid queries array" /\
  handler_par example_number_to_string example_string_to_number
    example_vector_provider example_store
    (example_request (repeat (example_query (JNum 1) (JStr "CODE")) 201))
  <> Resp400 "Maximum 200 queries per batch".
Proof.
  destruct batch_validation_responses as (_ & H1 & H2 & H3). split; [|split].
  - apply (H2 _ _ _
             (example_request (repeat (example_query (JNum 1) (JStr "CODE")) 201))
             (repeat (example_query (JNum 1) (JStr "CODE")) 201)
             eq_refl eq_refl).
    rewrite repeat_length. lia.
  - exact (proj1 (H1 example_number_to_string example_string_to_number
                    example_vector_provider example_store
                    example_failing_batch_store
                    {| method := "POST"; body := JObj [("queries", JArr [])] |}
                    (JArr []) eq_refl eq_refl eq_refl)).
  - exact (proj1 (proj2 (H3 example_number_to_string example_string_to_number
             example_vector_provider example_store example_failing_batch_store
             (example_request (repeat (example_query (JNum 1) (JStr "CODE")) 201))
             (repeat (example_query (JNum 1) (JStr "CODE")) 201)
             "Maximum 200 queries per batch" eq_refl ltac:(discriminate)))).
Defined.

(** C8 fails as stated: the two chunked handlers and the batched-lookup
    handler accept a batch of 201 queries and answer it with 201 entries;
    they have no size limit. *)
Lemma uncapped_batch_counterexample :
  match handler_seq example_number_to_string example_vector_provider
          example_store
          (example_request (repeat (example_query (JNum 1) (JStr "CODE")) 201))
  with
  | Resp200 n _ => n = 201
  | _ => False
  end /\
  match handler_par example_number_to_string example_string_to_number
          example_vector_provider example_store
          (example_request (repeat (example_query (JNum 1) (JStr "CODE")) 201))
  with
  | Resp200 n _ => n = 201
  | _ => False
  end /\
  match handler_batch example_number_to_string example_string_to_number
          example_vector_provider example_batch_store
          (example_request (repeat (example_query (JNum 1) (JStr "CODE")) 201))
  with
  | Resp200 n _ => n = 201
  | _ => False
  end.
Proof. vm_compute. repeat split. Qed.

(** C5 (amended).  Each query of the sequential loop gets exactly one entry,
    decided in this order: no embedding gives 'Embedding failed:0.00'; a
    [uniclass_type] that is not a string makes the lookup throw and gives
    'Processing error:0.00'; an error reported by the store gives 'Database
    error:0.00'; no rows give 'No match found:0.00'; rows give a success
    entry built from the first row, whose alternatives are the remaining rows
    in order (at most 2 when the store honours the requested count of 3). *)
Theorem per_query_outcomes :
  forall nts rpc i q emb ut of rid,
  destructure_query q = Ok (ut, of, rid) ->
  (truthy emb = false ->
     process_item_seq nts rpc i q emb =
       Ok (sentinel (effective_id rid i) "Embedding failed:0.00")) /\
  (truthy emb = true -> (forall s, ut <> JStr s) ->
     process_item_seq nts rpc i q emb =
       Ok (sentinel (effective_id rid i) "Processing error:0.00")) /\
  (forall s, truthy emb = true -> ut = JStr s ->
     truthy (rerror (rpc emb (upper s) (1 # 10) 3%Z)) = true ->
     process_item_seq nts rpc i q emb =
       Ok (sentinel (effective_id rid i) "Database error:0.00")) /\
  (forall s, truthy emb = true -> ut = JStr s ->
     truthy (rerror (rpc emb (upper s) (1 # 10) 3%Z)) = false ->
     (rdata (rpc emb (upper s) (1 # 10) 3%Z) = JArr [] \/
      truthy (rdata (rpc emb (upper s) (1 # 10) 3%Z)) = false) ->
     process_item_seq nts rpc i q emb =
       Ok (sentinel (effective_id rid i) "No match found:0.00")) /\
  (forall s fs best rest code title sim,
     truthy emb = true -> ut = JStr s -> of = JStr fs ->
     truthy (rerror (rpc emb (upper s) (1 # 10) 3%Z)) = false ->
     rdata (rpc emb (upper s) (1 # 10) 3%Z) = JArr (best :: rest) ->
     candidate_row best code title sim ->
     Forall (fun c => exists code' title' sim',
                        candidate_row c code' title' sim') rest ->
     exists alts,
       Forall2 (fun c a => exists code' title' sim',
                  candidate_row c code' title' sim' /\
                  a = row_alternative code' title' sim') rest alts /\
       (length (best :: rest) <= 3 -> length alts <= 2) /\
       process_item_seq nts rpc i q emb =
         Ok {| request_id := effective_id rid i;
               match_ :=
                 (if String.eqb (upper fs) "CODE" then code
                  else if String.eqb (upper fs) "TITLE" then title
                  else code ++ ":" ++ title) ++ ":" ++ toFixed2 sim;
               confidence := JNum sim;
               alternatives := alts |}).
Proof.
  intros nts rpc i q emb ut of rid Ed.
  unfold process_item_seq. rewrite Ed. cbn [bind].
  unfold lookup_entry.
  split; [|split; [|split; [|split]]].
  - intros He. rewrite He. reflexivity.
  - intros He Hut. rewrite He. cbn [negb].
    destruct ut; try reflexivity. exfalso. exact (Hut s eq_refl).
  - intros s He -> Herr. rewrite He. cbn [negb js_toUpperCase bind].
    cbv zeta. rewrite Herr. reflexivity.
  - intros s He -> Herr Hd. rewrite He. cbn [negb js_toUpperCase bind].
    cbv zeta. rewrite Herr.
    destruct Hd as [Hd|Hd]; rewrite Hd; [reflexivity|].
    reflexivity.
  - intros s fs best rest code title sim He -> -> Herr Hd Hbest Hrest.
    destruct (to_alternative_rows rest Hrest) as (alts & Hm & Hf).
    exists alts. split; [exact Hf|]. split.
    { intros Hl. rewrite <- (Forall2_length Hf). simpl in Hl. lia. }
    rewrite He. cbn [negb js_toUpperCase bind]. cbv zeta.
    rewrite Herr, Hd. cbn [negb truthy member].
    cbn [bind]. rewrite strict_eq_num_length.
    cbn [Datatypes.length Nat.eqb nth_error bind].
    rewrite (render_match_row _ _ _ _ _ _ Hbest).
    destruct Hbest as (_ & _ & Hs). cbn [bind]. rewrite Hs.
    cbn [bind js_toFixed2 rest_alternatives tl]. rewrite Hm. reflexivity.
Qed.

Lemma per_query_outcomes_witness :
  process_item_seq example_number_to_string example_store 0
    (example_query (JNum 5) (JStr "CODE")) (JArr [JNum 1; JNum 0])
  = Ok {| request_id := JNum 5; match_ := "Ss_25_10:0.87";
          confidence := JNum sim_087;
          alternatives := [row_alternative "Ss_25_20" "Partitions" (1 # 2)] |}.
Proof.
  destruct (per_query_outcomes example_number_to_string example_store 0
              (example_query (JNum 5) (JStr "CODE")) (JArr [JNum 1; JNum 0])
              (JStr "ss") (JStr "CODE") (JNum 5) eq_refl)
    as (_ & _ & _ & _ & H).
  destruct (H "ss" "CODE"
              (JObj [("code", JStr "Ss_25_10"); ("title", JStr "Walls");
                     ("similarity", JNum sim_087)])
              [JObj [("code", JStr "Ss_25_20"); ("title", JStr "Partitions");
                     ("similarity", JNum (1 # 2))]]
              "Ss_25_10" "Walls" sim_087 eq_refl eq_refl eq_refl eq_refl
              eq_refl)
    as (alts & Hf & _ & ->).
  - repeat split.
  - repeat constructor. do 3 eexists. repeat split.
  - inversion Hf as [|c a r1 r2 (code & title & sim & (Hc & Ht & Hs) & ->) Hf2];
      subst. inversion Hf2; subst.
    simpl in Hc, Ht, Hs. injection Hc as <-. injection Ht as <-.
    injection Hs as <-. vm_compute. reflexivity.
Defined.

(** C5 fails as stated: a query without a [uniclass_type] whose embedding
    succeeded, looked up in a store that reports an error, gets the fifth
    outcome 'Processing error:0.00', not 'Database error:0.00'. *)
Lemma processing_error_outcome_counterexample :
  match handler_seq example_number_to_string example_vector_provider
          example_failing_store
          (example_request [JObj [("query", JStr "door")]]) with
  | Resp200 _ [e] => match_ e = "Processing error:0.00"
  | _ => False
  end.
Proof. vm_compute. reflexivity. Qed.

(** C6.  A successful match string is the rendering selected by the
    upper-cased [output_format] ([CODE]: the code; [TITLE]: the title; any
    other value: code, colon, title), a colon, and the similarity printed by
    [toFixed(2)]: an integer part, a dot and exactly two digits, within half
    a hundredth of the similarity.  With [CODE], code "Ss_25_10" and the
    similarity 0.87 the match string is "Ss_25_10:0.87". *)
Theorem match_string_format :
  (forall nts rpc rid fs s emb best rest code title sim e,
     truthy emb = true ->
     truthy (rerror (rpc emb (upper s) (1 # 10) 3%Z)) = false ->
     rdata (rpc emb (upper s) (1 # 10) 3%Z) = JArr (best :: rest) ->
     candidate_row best code title sim ->
     lookup_entry nts rpc rid (JStr fs) (JStr s) emb = Ok e ->
     match_ e =
       (if String.eqb (upper fs) "CODE" then code
        else if String.eqb (upper fs) "TITLE" then title
        else code ++ ":" ++ title) ++ ":" ++ toFixed2 sim /\
     confidence e = JNum sim) /\
  (forall x, (0 <= x)%Q ->
     exists ip d1 d2 : N,
       (d1 < 10)%N /\ (d2 < 10)%N /\
       toFixed2 x = show_N ip ++ "." ++
                    String (digit_char d1) (String (digit_char d2) "") /\
       (100 * x - (1 # 2) <
          inject_Z (Z.of_N (100 * ip + 10 * d1 + d2)))%Q /\
       (inject_Z (Z.of_N (100 * ip + 10 * d1 + d2)) <=
          100 * x + (1 # 2))%Q) /\
  toFixed2 sim_087 = "0.87" /\
  match handler_seq example_number_to_string example_vector_provider
          example_store
          (example_request [example_query (JNum 1) (JStr "CODE")]) with
  | Resp200 _ [e] => match_ e = "Ss_25_10:0.87"
  | _ => False
  end.
Proof.
  split; [|split; [exact toFixed2_digits|split; vm_compute; reflexivity]].
  intros nts rpc rid fs s emb best rest code title sim e He Herr Hd Hbest H.
  unfold lookup_entry in H. rewrite He in H. cbn [negb js_toUpperCase bind] in H.
  cbv zeta in H. rewrite Herr, Hd in H. cbn [negb truthy member bind] in H.
  rewrite strict_eq_num_length in H.
  cbn [Datatypes.length Nat.eqb nth_error bind] in H.
  rewrite (render_match_row _ _ _ _ _ _ Hbest) in H.
  destruct Hbest as (_ & _ & Hs). cbn [bind] in H. rewrite Hs in H.
  cbn [bind js_toFixed2 rest_alternatives tl] in H.
  destruct (mapM to_alternative rest); cbn [bind] in H; [|discriminate].
  injection H as <-. split; reflexivity.
Qed.

Lemma match_string_format_witness :
  match lookup_entry example_number_to_string example_store (JNum 1)
          (JStr "code") (JStr "ss") (JArr [JNum 1; JNum 0]) with
  | Ok e => match_ e = "Ss_25_10:0.87"
  | Throw => False
  end.
Proof.
  destruct match_string_format as (H1 & _).
  destruct (lookup_entry _ _ _ _ _ _) as [e|] eqn:E;
    [|vm_compute in E; discriminate].
  destruct (H1 example_number_to_string example_store (JNum 1) "code" "ss"
              (JArr [JNum 1; JNum 0])
              (JObj [("code", JStr "Ss_25_10"); ("title", JStr "Walls");
                     ("similarity", JNum sim_087)])
              [JObj [("code", JStr "Ss_25_20"); ("title", JStr "Partitions");
                     ("similarity", JNum (1 # 2))]]
              "Ss_25_10" "Walls" sim_087 e eq_refl eq_refl eq_refl
              ltac:(repeat split) E) as [-> _].
  vm_compute. reflexivity.
Defined.

(** C7 (code bug).  The sequential handler emits the entry of query [i] at
    position [i].  The parallel handler emits the per-query entries, which
    [Promise.all] delivers in input order, sorted on [request_id] by the
    numeric comparator [a.request_id - b.request_id] (a numeric string such
    as "10" sorts after "2"): the result is a rearrangement of the entries in
    input order, and it is that input order exactly when the input order is
    already sorted on [request_id]. *)
Theorem results_order :
  (forall nts stn a b, request_id a = JStr "10" -> request_id b = JStr "2" ->
     compare_request_id nts stn a b = Gt) /\
  forall nts stn provider rpc req qs,
  member (body req) (KName "queries") = Ok (JArr qs) ->
  (forall n rs, handler_seq nts provider rpc req = Resp200 n rs ->
     exists texts,
       mapM (fun q => member q (KName "query")) qs = Ok texts /\
       length rs = length qs /\
       forall i e, nth_error rs i = Some e ->
       exists q, nth_error qs i = Some q /\
         process_item_seq nts rpc i q
           (nth_js (fetch_embeddings (getBatchEmbeddings provider) texts) i)
         = Ok e) /\
  (forall n rs, handler_par nts stn provider rpc req = Resp200 n rs ->
     exists texts results,
       mapM (fun q => member q (KName "query")) qs = Ok texts /\
       promise_all (mapi (fun i q => process_item_par nts rpc i q
           (nth_js (fetch_embeddings (getBatchEmbeddings_v2 provider) texts) i))
         qs) = Ok results /\
       map request_id results =
         mapi (fun i q => effective_id (supplied_id q) i) qs /\
       Permutation rs results /\
       Sorted (not_gt (compare_request_id nts stn)) rs /\
       (rs = results <-> Sorted (not_gt (compare_request_id nts stn)) results)).
Proof.
  split.
  { intros nts stn a b Ha Hb. unfold compare_request_id. rewrite Ha, Hb.
    reflexivity. }
  intros nts stn provider rpc req qs Hq. split; intros n rs H.
  - destruct (handler_seq_200 _ _ _ _ _ _ H)
      as (qs' & texts & Hq' & _ & Ht & _ & Hr & _).
    rewrite Hq in Hq'. injection Hq' as <-.
    exists texts. split; [exact Ht|]. split.
    + exact (mapiM_from_length _ _ _ _ Hr).
    + intros i e He. exact (mapiM_from_nth _ _ 0 rs Hr i e He).
  - destruct (handler_par_200 _ _ _ _ _ _ _ H)
      as (qs' & texts & results & Hq' & _ & Ht & Hr & -> & _).
    rewrite Hq in Hq'. injection Hq' as <-.
    assert (Hs : Sorted (not_gt (compare_request_id nts stn))
                   (sort_by (compare_request_id nts stn) results))
      by (apply sort_by_sorted; apply compare_request_id_antisym).
    exists texts, results. split; [exact Ht|]. split; [exact Hr|].
    split; [|split; [|split; [exact Hs|split]]].
    + exact (promise_all_mapi_map _ request_id
               (fun i q => effective_id (supplied_id q) i) qs
               (fun j x y Hy => proj1 (process_item_par_facts _ _ _ _ _ _ Hy))
               0 results Hr).
    + apply sort_by_perm.
    + intros E. rewrite <- E. exact Hs.
    + apply sort_by_sorted_id.
Qed.

Lemma results_order_witness :
  match handler_par example_number_to_string example_string_to_number
          example_vector_provider example_store
          (example_request [example_query (JNum 2) (JStr "CODE");
                            example_query (JNum 1) (JStr "TITLE")]) with
  | Resp200 _ rs => exists results,
      map request_id results = [JNum 2; JNum 1] /\ rs <> results
  | _ => False
  end.
Proof.
  destruct results_order as (_ & Hall).
  destruct (Hall example_number_to_string example_string_to_number
              example_vector_provider example_store
              (example_request [example_query (JNum 2) (JStr "CODE");
                                example_query (JNum 1) (JStr "TITLE")])
              _ eq_refl) as (_ & Hpar).
  destruct (handler_par _ _ _ _ _) eqn:E;
    try (vm_compute in E; discriminate).
  destruct (Hpar _ _ eq_refl) as (texts & res & _ & _ & Hmap & _ & _ & Hid).
  exists res. split; [exact Hmap|]. intros Heq.
  apply Hid in Heq.
  destruct res as [|a [|b r]]; try discriminate.
  injection Hmap as Ha Hb _.
  inversion Heq as [|x l _ Hhd]; subst. inversion Hhd as [|y l' Hab]; subst.
  unfold not_gt, compare_request_id in Hab. rewrite Ha, Hb in Hab.
  apply Hab. reflexivity.
Defined.

(** C7 fails as stated: the parallel handler answers the batch with
    identifiers 2 and 1, in this order, with the entries in the order 1, 2. *)
Lemma parallel_reorders_counterexample :
  match handler_par example_number_to_string example_string_to_number
          example_vector_provider example_store
          (example_request [example_query (JNum 2) (JStr "CODE");
                            example_query (JNum 1) (JStr "CODE")]) with
  | Resp200 _ rs => map request_id rs = [JNum 1; JNum 2]
  | _ => False
  end.
Proof. vm_compute. reflexivity. Qed.

(** ** Further properties of the handlers *)

Lemma parse_digit_char d s a :
  (d < 10)%N -> parse_digits (String (digit_char d) s) a = parse_digits s (a * 10 + d).
Proof.
  intros Hd. cbn [parse_digits]. unfold digit_char.
  rewrite N_ascii_embedding by lia.
  replace (N.leb 48 (48 + d) && N.leb (48 + d) 57) with true
    by (symmetry; apply andb_true_iff; split; apply N.leb_le; lia).
  f_equal. lia.
Qed.

Lemma show_N_aux_parse fuel :
  forall n acc a, (n < 10 ^ N.of_nat fuel)%N ->
  exists k, parse_digits (show_N_aux fuel n acc) a =
            parse_digits acc (a * 10 ^ k + n).
Proof.
  induction fuel as [|f IH]; intros n acc a Hn.
  - exists 0%N. simpl in *. replace (a * 1 + n)%N with a by lia. reflexivity.
  - rewrite Nat2N.inj_succ, N.pow_succ_r' in Hn. cbn [show_N_aux].
    pose proof (N.mod_lt n 10 ltac:(lia)).
    pose proof (N.div_mod n 10 ltac:(lia)).
    destruct (N.ltb_spec n 10) as [Hlt|Hge].
    + exists 1%N. rewrite parse_digit_char by lia.
      rewrite N.mod_small by lia. f_equal; lia.
    + destruct (IH (n / 10)%N (String (digit_char (n mod 10)) acc) a)
        as [k Hk].
      { apply N.Div0.div_lt_upper_bound. lia. }
      exists (N.succ k). rewrite Hk, parse_digit_char by lia.
      f_equal. rewrite N.pow_succ_r'.
      set (q := (n / 10)%N) in *. set (r := (n mod 10)%N) in *.
      clearbody q r. nia.
Qed.

Lemma size_nat_bound n : (n < 10 ^ N.of_nat (S (N.size_nat n)))%N.
Proof.
  assert (H2 : forall p, (Npos p < 2 ^ N.of_nat (Pos.size_nat p))%N).
  { induction p as [p IH|p IH|]; cbn [Pos.size_nat];
      rewrite ?Nat2N.inj_succ, ?N.pow_succ_r'.
    - change (Npos p~1) with (2 * Npos p + 1)%N. lia.
    - change (Npos p~0) with (2 * Npos p)%N. lia.
    - simpl. lia. }
  destruct n as [|p]; [simpl; lia|]. cbn [N.size_nat].
  rewrite Nat2N.inj_succ, N.pow_succ_r'.
  specialize (H2 p).
  assert (2 ^ N.of_nat (Pos.size_nat p) <= 10 ^ N.of_nat (Pos.size_nat p))%N
    by (apply N.pow_le_mono_l; lia).
  lia.
Qed.

Lemma show_N_parse n : parse_digits (show_N n) 0 = Some n.
Proof.
  unfold show_N. destruct (show_N_aux_parse _ n "" 0%N (size_nat_bound n))
    as [k ->]. simpl. f_equal.
Qed.

Lemma canonical_index_show_N n :
  canonical_index (show_N n) = Some (N.to_nat n).
Proof.
  unfold canonical_index. rewrite show_N_parse, String.eqb_refl. reflexivity.
Qed.

Lemma property_key_nat nts k : property_key nts (num_of_nat k) = KIdx k.
Proof.
  unfold property_key, num_of_nat. rewrite Qfloor_Z, Qeq_bool_refl.
  replace (Z.leb 0 (Z.of_nat k)) with true by (symmetry; apply Z.leb_le; lia).
  simpl. now rewrite Nat2Z.id.
Qed.

Lemma property_key_show_N nts k :
  property_key nts (JStr (show_N (N.of_nat k))) = KIdx k.
Proof.
  unfold property_key. rewrite canonical_index_show_N, Nat2N.id. reflexivity.
Qed.

Lemma same_value_zero_sym a b : same_value_zero a b = same_value_zero b a.
Proof. destruct a, b; simpl; try reflexivity. apply Qeq_bool_comm. Qed.

Lemma same_value_zero_trans a b c :
  same_value_zero a b = true -> same_value_zero b c = true ->
  same_value_zero a c = true.
Proof.
  destruct a, b, c; simpl; try discriminate; try reflexivity.
  apply Qeq_bool_trans.
Qed.

Lemma to_number_cases nts stn v :
  (exists q, to_number nts stn v = JNum q) \/ to_number nts stn v = JNaN.
Proof.
  assert (Hs : forall s, (exists q, string_to_number stn s = JNum q) \/
                         string_to_number stn s = JNaN).
  { intros s. unfold string_to_number, num_of_opt.
    destruct s as [|c s]; [destruct (stn _); eauto|].
    destruct (parse_digits _ _); [destruct (N.ltb _ _)|];
      try destruct (stn _); eauto. }
  destruct v; cbn [to_number]; eauto.
Qed.

Lemma to_number_svz_refl nts stn v :
  same_value_zero (to_number nts stn v) (to_number nts stn v) = true.
Proof.
  destruct (to_number_cases nts stn v) as [[q ->]| ->]; simpl;
    [apply Qeq_bool_refl|reflexivity].
Qed.

Lemma map_get_svz a b m :
  same_value_zero a b = true -> map_get a m = map_get b m.
Proof.
  intros Hab. induction m as [|[k v] m IH]; simpl; [reflexivity|].
  destruct (same_value_zero a k) eqn:Ea, (same_value_zero b k) eqn:Eb;
    try reflexivity; [| |exact IH].
  - rewrite same_value_zero_sym in Hab.
    rewrite (same_value_zero_trans _ _ _ Hab Ea) in Eb. discriminate.
  - rewrite (same_value_zero_trans _ _ _ Hab Eb) in Ea. discriminate.
Qed.

Lemma map_get_set_same k v m :
  same_value_zero k k = true -> map_get k (map_set k v m) = Some v.
Proof.
  intros Hk. induction m as [|[k' v'] m IH]; simpl.
  - now rewrite Hk.
  - destruct (same_value_zero k k') eqn:E; simpl; rewrite E; auto.
Qed.

Lemma map_get_set_other k k' v m :
  same_value_zero k' k = false -> map_get k' (map_set k v m) = map_get k' m.
Proof.
  intros Hk. induction m as [|[k0 v0] m IH]; simpl.
  - now rewrite Hk.
  - destruct (same_value_zero k k0) eqn:E; simpl.
    + destruct (same_value_zero k' k0) eqn:E'; [|reflexivity].
      rewrite same_value_zero_sym in E.
      rewrite (same_value_zero_trans _ _ _ E' E) in Hk. discriminate.
    + destruct (same_value_zero k' k0); [reflexivity|exact IH].
Qed.

Lemma map_set_Forall_kv (P : jsval -> result_entry -> Prop) k v m :
  (forall k', k' = k \/ same_value_zero k k' = true -> P k' v) ->
  Forall (fun kv => P (fst kv) (snd kv)) m ->
  Forall (fun kv => P (fst kv) (snd kv)) (map_set k v m).
Proof.
  intros Hv. induction m as [|[k' v'] m IH]; intros Hm; simpl.
  - constructor; [apply Hv; auto|constructor].
  - inversion Hm; subst. destruct (same_value_zero k k') eqn:E;
      constructor; auto.
Qed.

Lemma map_get_in_kv (P : jsval -> result_entry -> Prop) k m e :
  map_get k m = Some e -> Forall (fun kv => P (fst kv) (snd kv)) m ->
  exists k', same_value_zero k k' = true /\ P k' e.
Proof.
  induction m as [|[k' v'] m IH]; simpl; intros H Hm; [discriminate|].
  inversion Hm; subst. destruct (same_value_zero k k') eqn:E.
  - injection H as <-. eauto.
  - auto.
Qed.

Lemma batch_item_set nts stn qs m it m' :
  batch_item nts stn qs m it = Ok m' ->
  exists rid e, member it (KName "request_id") = Ok rid /\
    m' = map_set (to_number nts stn rid) e m /\
    request_id e = to_number nts stn rid /\ alternatives e = [].
Proof.
  unfold batch_item. intros H. split_binds H. injection H as <-.
  do 2 eexists. split; [reflexivity|]. split; [reflexivity|]. auto.
Qed.

Lemma foldM_batch_inv nts stn qs items :
  forall m m', foldM (batch_item nts stn qs) m items = Ok m' ->
  Forall (fun kv => results_map_inv (fst kv) (snd kv)) m ->
  Forall (fun kv => results_map_inv (fst kv) (snd kv)) m'.
Proof.
  induction items as [|it items IH]; simpl; intros m m' H Hm.
  - now injection H as <-.
  - destruct (batch_item nts stn qs m it) as [m1|] eqn:E; [|discriminate].
    cbn [bind] in H. eapply IH; [exact H|].
    destruct (batch_item_set _ _ _ _ _ _ E) as (rid & e & _ & -> & Hid & Ha).
    apply map_set_Forall_kv; [|exact Hm].
    intros k' [->|Hk]; split; auto; rewrite Hid;
      [apply to_number_svz_refl|exact Hk].
Qed.

Lemma final_entry_inv nts stn embs m i q e :
  Forall (fun kv => results_map_inv (fst kv) (snd kv)) m ->
  final_entry nts stn embs m i q = Ok e ->
  same_value_zero (request_id e)
    (to_number nts stn (effective_id (supplied_id q) i)) = true /\
  alternatives e = [].
Proof.
  unfold final_entry, supplied_id. intros Hm H.
  destruct (member q (KName "request_id")) as [rid|]; [|discriminate].
  cbn [bind catch] in H |- *.
  destruct (map_get _ m) as [e'|] eqn:Eg; injection H as <-.
  - destruct (map_get_in_kv _ _ _ _ Eg Hm) as (k' & Hk & Hid & Ha).
    split; [|exact Ha]. rewrite same_value_zero_sym in Hk.
    exact (same_value_zero_trans _ _ _ Hid Hk).
  - split; [apply to_number_svz_refl|reflexivity].
Qed.

Lemma handler_batch_entries nts stn provider brpc req qs n rs :
  handler_batch nts stn provider brpc req = Resp200 n rs ->
  member (body req) (KName "queries") = Ok (JArr qs) ->
  exists embs m,
    Forall (fun kv => results_map_inv (fst kv) (snd kv)) m /\
    mapiM (final_entry nts stn embs m) qs = Ok rs.
Proof.
  intros H Hq.
  destruct (handler_batch_200 _ _ _ _ _ _ _ H)
    as (qs' & texts & m & Hq' & _ & _ & [items Hf] & Hr & _).
  rewrite Hq in Hq'. injection Hq' as <-.
  exists (fetch_embeddings (getBatchEmbeddings_v2 provider) texts), m.
  split; [|exact Hr]. eapply foldM_batch_inv; [exact Hf|constructor].
Qed.

(** X10. Every result entry of a 200 answer of the last batch handler of
    batch-match-uniclass.js has an empty alternatives list. *)
Theorem batch_entries_without_alternatives :
  forall nts stn provider brpc req qs n rs,
  member (body req) (KName "queries") = Ok (JArr qs) ->
  handler_batch nts stn provider brpc req = Resp200 n rs ->
  Forall (fun e => alternatives e = []) rs.
Proof.
  intros nts stn provider brpc req qs n rs Hq H.
  destruct (handler_batch_entries _ _ _ _ _ _ _ _ H Hq) as (embs & m & Hm & Hr).
  eapply mapiM_from_Forall; [|exact Hr].
  intros j x y Hy. exact (proj2 (final_entry_inv _ _ _ _ _ _ _ Hm Hy)).
Qed.

(** X11. In a 200 answer of the last batch handler, the request_id of the
    i-th result entry is SameValueZero-equal to Number(queries[i].request_id
    || i). *)
Theorem batch_entry_request_ids :
  forall nts stn provider brpc req qs n rs,
  member (body req) (KName "queries") = Ok (JArr qs) ->
  handler_batch nts stn provider brpc req = Resp200 n rs ->
  forall i e, nth_error rs i = Some e ->
  exists q, nth_error qs i = Some q /\
    same_value_zero (request_id e)
      (to_number nts stn (effective_id (supplied_id q) i)) = true.
Proof.
  intros nts stn provider brpc req qs n rs Hq H i e He.
  destruct (handler_batch_entries _ _ _ _ _ _ _ _ H Hq) as (embs & m & Hm & Hr).
  destruct (mapiM_from_nth _ _ _ _ Hr i e He) as (q & Hqi & Hf).
  exists q. split; [exact Hqi|].
  exact (proj1 (final_entry_inv _ _ _ _ _ _ _ Hm Hf)).
Qed.

(** X12. If two queries of a batch have SameValueZero-equal
    Number(request_id || index), the last batch handler returns the same
    entry for both, or both entries are no-match or embedding-failed
    sentinels. *)
Theorem batch_colliding_ids_share_entry :
  forall nts stn provider brpc req qs n rs i j qi qj ei ej,
  member (body req) (KName "queries") = Ok (JArr qs) ->
  handler_batch nts stn provider brpc req = Resp200 n rs ->
  nth_error qs i = Some qi -> nth_error qs j = Some qj ->
  same_value_zero (to_number nts stn (effective_id (supplied_id qi) i))
                  (to_number nts stn (effective_id (supplied_id qj) j)) = true ->
  nth_error rs i = Some ei -> nth_error rs j = Some ej ->
  ei = ej \/
  (exists mi mj,
     In mi ["No match found:0.00"; "Embedding failed:0.00"] /\
     In mj ["No match found:0.00"; "Embedding failed:0.00"] /\
     ei = sentinel (request_id ei) mi /\ ej = sentinel (request_id ej) mj).
Proof.
  intros nts stn provider brpc req qs n rs i j qi qj ei ej Hq H Hi Hj Hsvz
    Hei Hej.
  destruct (handler_batch_entries _ _ _ _ _ _ _ _ H Hq) as (embs & m & _ & Hr).
  destruct (mapiM_from_nth _ _ _ _ Hr i ei Hei) as (qi' & Hqi & Hfi).
  destruct (mapiM_from_nth _ _ _ _ Hr j ej Hej) as (qj' & Hqj & Hfj).
  rewrite Hi in Hqi. injection Hqi as <-. rewrite Hj in Hqj. injection Hqj as <-.
  cbn [Nat.add] in Hfi, Hfj. unfold final_entry in Hfi, Hfj.
  unfold supplied_id in Hsvz.
  destruct (member qi (KName "request_id")) as [ridi|]; [|discriminate].
  destruct (member qj (KName "request_id")) as [ridj|]; [|discriminate].
  cbn [bind catch] in Hfi, Hfj, Hsvz.
  rewrite (map_get_svz _ _ m Hsvz) in Hfi.
  destruct (map_get _ m) as [e|].
  - left. injection Hfi as <-. injection Hfj as <-. reflexivity.
  - right. injection Hfi as <-. injection Hfj as <-.
    do 2 eexists. split; [|split; [|split; reflexivity]];
      match goal with |- In (if ?b then _ else _) _ => destruct b end;
      simpl; tauto.
Qed.

Lemma foldM_app {A B : Type} (f : A -> B -> exc A) a l1 l2 :
  foldM f a (l1 ++ l2) = (a' <- foldM f a l1 ;; foldM f a' l2).
Proof.
  revert a; induction l1 as [|x l1 IH]; intros a; simpl; [reflexivity|].
  destruct (f a x); simpl; [apply IH|reflexivity].
Qed.

Lemma foldM_batch_keeps nts stn qs k post :
  (forall it rid, In it post -> member it (KName "request_id") = Ok rid ->
     same_value_zero (to_number nts stn rid) k = false) ->
  forall m m', foldM (batch_item nts stn qs) m post = Ok m' ->
  map_get k m' = map_get k m.
Proof.
  intros Hpost. induction post as [|it post IH]; simpl; intros m m' H.
  - now injection H as <-.
  - destruct (batch_item nts stn qs m it) as [m1|] eqn:E; [|discriminate].
    cbn [bind] in H. rewrite (IH (fun it' rid Hin => Hpost it' rid (or_intror Hin))
                                _ _ H).
    destruct (batch_item_set _ _ _ _ _ _ E) as (rid & e & Hrid & -> & _ & _).
    apply map_get_set_other. rewrite same_value_zero_sym.
    exact (Hpost it rid (or_introl eq_refl) Hrid).
Qed.

(** X13. When several rows returned by the batched similarity call carry the
    same request id, the results map keeps the entry built from the last of
    them: the entry stored by that row is the one found after the loop,
    provided no later row has an equal id. *)
Theorem batch_rows_last_one_wins :
  forall nts stn qs m0 pre it post m rid,
  foldM (batch_item nts stn qs) m0 (pre ++ it :: post) = Ok m ->
  member it (KName "request_id") = Ok rid ->
  (forall it' rid', In it' post -> member it' (KName "request_id") = Ok rid' ->
     same_value_zero (to_number nts stn rid') (to_number nts stn rid) = false) ->
  exists mb e,
    foldM (batch_item nts stn qs) m0 pre = Ok mb /\
    batch_item nts stn qs mb it = Ok (map_set (to_number nts stn rid) e mb) /\
    map_get (to_number nts stn rid) m = Some e.
Proof.
  intros nts stn qs m0 pre it post m rid H Hrid Hpost.
  rewrite foldM_app in H.
  destruct (foldM _ m0 pre) as [mb|] eqn:Epre; [|discriminate].
  cbn [bind foldM] in H.
  destruct (batch_item nts stn qs mb it) as [m1|] eqn:E; [|discriminate].
  cbn [bind] in H.
  destruct (batch_item_set _ _ _ _ _ _ E) as (rid' & e & Hrid' & -> & _ & _).
  rewrite Hrid in Hrid'. injection Hrid' as <-.
  exists mb, e. split; [reflexivity|]. split; [exact E|].
  rewrite (foldM_batch_keeps _ _ _ _ _ Hpost _ _ H).
  apply map_get_set_same, to_number_svz_refl.
Qed.

Lemma supplied_id_member q rid :
  member q (KName "request_id") = Ok rid -> supplied_id q = rid.
Proof. unfold supplied_id. intros ->. reflexivity. Qed.

Lemma prepare_queries_from nts stn embs qs :
  forall k prep, mapiM_from (prepare_query nts stn embs) k qs = Ok prep ->
  let sel := filter (fun iq => truthy (nth_js embs (fst iq)))
               (combine (seq k (length qs)) qs) in
  map (fun p => snd (fst p)) (concat prep) =
    map (fun iq => nth_js embs (fst iq)) sel /\
  map (fun p => fst (fst p)) (concat prep) =
    map (fun iq => to_number nts stn (effective_id (supplied_id (snd iq))
                                        (fst iq))) sel /\
  Forall2 (fun p iq => exists s,
             member (snd iq) (KName "uniclass_type") = Ok (JStr s) /\
             snd p = upper s) (concat prep) sel.
Proof.
  induction qs as [|q qs IH]; intros k prep H; simpl in H.
  - injection H as <-. simpl. auto.
  - destruct (prepare_query nts stn embs k q) as [p1|] eqn:Ep; [|discriminate].
    cbn [bind] in H.
    destruct (mapiM_from _ (S k) qs) as [prep'|] eqn:E; [|discriminate].
    cbn [bind] in H. injection H as <-.
    destruct (IH _ _ E) as (H1 & H2 & H3).
    cbn [length seq combine filter fst concat].
    unfold prepare_query in Ep.
    destruct (truthy (nth_js embs k)) eqn:Et.
    + split_binds Ep. injection Ep as <-. cbn [app map fst snd].
      rewrite H1, H2. rewrite (supplied_id_member _ _ E0).
      split; [reflexivity|split; [reflexivity|]].
      constructor; [|exact H3]. destruct a0; cbn in E2; try discriminate.
      injection E2 as <-. eauto.
    + injection Ep as <-. cbn [app]. auto.
Qed.

(** X15. The batched similarity call receives exactly the queries with a
    truthy embedding, in query order. It gets their embeddings, their ids
    Number(request_id || index), and the upper-cased string uniclass_type of
    each. *)
Theorem batch_call_sends_embedded_queries :
  forall nts stn embs qs prep,
  mapiM (prepare_query nts stn embs) qs = Ok prep ->
  let sel := filter (fun iq => truthy (nth_js embs (fst iq)))
               (combine (seq 0 (length qs)) qs) in
  map (fun p => snd (fst p)) (concat prep) =
    map (fun iq => nth_js embs (fst iq)) sel /\
  map (fun p => fst (fst p)) (concat prep) =
    map (fun iq => to_number nts stn (effective_id (supplied_id (snd iq))
                                        (fst iq))) sel /\
  Forall2 (fun p iq => exists s,
             member (snd iq) (KName "uniclass_type") = Ok (JStr s) /\
             snd p = upper s) (concat prep) sel.
Proof. intros nts stn embs qs prep H. exact (prepare_queries_from _ _ _ _ _ _ H). Qed.

Lemma upper_empty s : String.eqb (upper s) "" = String.eqb s "".
Proof. destruct s; reflexivity. Qed.

Lemma opt_member_member v k r : member v k = Ok r -> opt_member v k = Ok r.
Proof. destruct v; simpl; intros H; try discriminate; exact H. Qed.

(** X16. For a row whose request_id is the index k as a number or a decimal
    string, the output format is COBIE when k is out of range or
    queries[k].output_format is undefined. When queries[k].output_format is
    a string s, it is COBIE if s is empty and s upper-cased otherwise. *)
Theorem batch_row_output_format :
  forall nts qs k rid,
  rid = num_of_nat k \/ rid = JStr (show_N (N.of_nat k)) ->
  (length qs <= k -> batch_output_format nts qs rid = Ok "COBIE") /\
  (forall q, nth_error qs k = Some q ->
     member q (KName "output_format") = Ok JUndef ->
     batch_output_format nts qs rid = Ok "COBIE") /\
  (forall q s, nth_error qs k = Some q ->
     member q (KName "output_format") = Ok (JStr s) ->
     batch_output_format nts qs rid =
       Ok (if String.eqb s "" then "COBIE" else upper s)).
Proof.
  intros nts qs k rid Hrid.
  assert (Hk : property_key nts rid = KIdx k)
    by (destruct Hrid as [->| ->];
        [apply property_key_nat|apply property_key_show_N]).
  unfold batch_output_format. rewrite Hk. cbn [member bind].
  split; [|split].
  - intros Hl. rewrite (proj2 (nth_error_None qs k) Hl). reflexivity.
  - intros q Hq Hof. rewrite Hq. cbn [bind].
    rewrite (opt_member_member _ _ _ Hof). reflexivity.
  - intros q s Hq Hof. rewrite Hq. cbn [bind].
    rewrite (opt_member_member _ _ _ Hof). cbn [bind js_toUpperCase].
    rewrite upper_empty. reflexivity.
Qed.

Lemma member_ok_other v k k' r :
  member v k = Ok r -> exists r', member v k' = Ok r'.
Proof. intros H. apply member_nonnullish. eapply member_ok_nonnullish; eauto. Qed.

(** X1. The single-query handler answers an OPTIONS request with the
    preflight response and any method other than OPTIONS and POST with 405.
    A POST whose body is null or undefined gets 500 Internal server error,
    and a POST whose query or uniclass_type is falsy gets 400 Missing query
    or uniclass_type. *)
Theorem single_request_validation :
  forall nts provider rpc req,
  (method req = "OPTIONS" -> handler_single nts provider rpc req = SPreflight) /\
  (method req <> "OPTIONS" -> method req <> "POST" ->
     handler_single nts provider rpc req = S405) /\
  (method req = "POST" -> body req = JNull \/ body req = JUndef ->
     handler_single nts provider rpc req = S500 "Internal server error") /\
  (method req = "POST" -> forall q ut,
     member (body req) (KName "query") = Ok q ->
     member (body req) (KName "uniclass_type") = Ok ut ->
     truthy q = false \/ truthy ut = false ->
     handler_single nts provider rpc req = S400 "Missing query or uniclass_type").
Proof.
  intros nts provider rpc req. unfold handler_single.
  split; [|split; [|split]].
  - intros ->. reflexivity.
  - intros H1 H2. apply String.eqb_neq in H1, H2. now rewrite H1, H2.
  - intros -> [-> | ->]; reflexivity.
  - intros -> q ut Hq Hut Hf. cbn [String.eqb Ascii.eqb Bool.eqb negb].
    destruct (member_ok_other _ _ (KName "output_format") _ Hq) as [of Hof].
    rewrite Hq, Hut, Hof. cbn [bind].
    destruct Hf as [-> | ->]; [reflexivity|]. now rewrite orb_true_r.
Qed.

Lemma single_post_prefix nts provider rpc req q ut :
  method req = "POST" ->
  member (body req) (KName "query") = Ok q ->
  member (body req) (KName "uniclass_type") = Ok ut ->
  truthy q = true -> truthy ut = true ->
  exists of, member (body req) (KName "output_format") = Ok of /\
  handler_single nts provider rpc req =
  catch
    (let output_format := match of with JUndef => JStr "COBIE" | _ => of end in
     let queryEmbedding := getEmbedding provider q in
     if negb (truthy queryEmbedding)
     then Ok (S500 "Failed to get embedding") else
     filter <- js_toUpperCase ut ;;
     let r := rpc queryEmbedding filter (1 # 10) 3%Z in
     if truthy (rerror r) then Ok (S500 "Database search failed") else
     let data := rdata r in
     if negb (truthy data) then Ok (S200 "No match found:0.00" (JNum 0) [])
     else
     len <- member data (KName "length") ;;
     if strict_eq_num len 0 then Ok (S200 "No match found:0.00" (JNum 0) [])
     else
     best <- member data (KIdx 0) ;;
     fmt <- js_toUpperCase output_format ;;
     result_text <- render_match nts fmt best ;;
     sim <- member best (KName "similarity") ;;
     score <- js_toFixed2 sim ;;
     alts <- rest_alternatives data ;;
     Ok (S200 (result_text ++ ":" ++ score) sim alts))
    (S500 "Internal server error").
Proof.
  intros Hm Hq Hut Htq Htu.
  destruct (member_ok_other _ _ (KName "output_format") _ Hq) as [of Hof].
  exists of. split; [exact Hof|]. unfold handler_single. rewrite Hm.
  cbn [String.eqb Ascii.eqb Bool.eqb negb]. rewrite Hq, Hut, Hof.
  cbn [bind]. rewrite Htq, Htu. reflexivity.
Qed.

(** X2. For a POST with a truthy query and uniclass_type, a failed embedding
    request or a response without an embedding gives 500 Failed to get
    embedding. When the embedding is obtained and the similarity store
    reports an error for the upper-cased uniclass_type, the answer is 500
    Database search failed. *)
Theorem single_embedding_and_store_failures :
  forall nts provider rpc req q ut,
  method req = "POST" ->
  member (body req) (KName "query") = Ok q ->
  member (body req) (KName "uniclass_type") = Ok ut ->
  truthy q = true -> truthy ut = true ->
  (provider q = PFail ->
     handler_single nts provider rpc req = S500 "Failed to get embedding") /\
  (forall data, provider q = PJson data ->
     member data (KName "embedding") = Ok JUndef ->
     handler_single nts provider rpc req = S500 "Failed to get embedding") /\
  (forall data emb vals s, provider q = PJson data ->
     member data (KName "embedding") = Ok emb ->
     member emb (KName "values") = Ok vals -> truthy vals = true ->
     ut = JStr s -> truthy (rerror (rpc vals (upper s) (1 # 10) 3%Z)) = true ->
     handler_single nts provider rpc req = S500 "Database search failed").
Proof.
  intros nts provider rpc req q ut Hm Hq Hut Htq Htu.
  destruct (single_post_prefix nts provider rpc req q ut Hm Hq Hut Htq Htu)
    as (of & _ & ->).
  split; [|split].
  - intros Hp. unfold getEmbedding. rewrite Hp. reflexivity.
  - intros data Hp He. unfold getEmbedding. rewrite Hp. cbn [bind].
    rewrite He. reflexivity.
  - intros data emb vals s Hp He Hv Htv -> Hr.
    assert (Hg : getEmbedding provider q = vals).
    { unfold getEmbedding. rewrite Hp. cbn [bind]. rewrite He. cbn [bind].
      rewrite (opt_member_member _ _ _ Hv). cbn [bind catch].
      unfold js_or. now rewrite Htv. }
    cbv zeta. rewrite Hg, Htv. cbn [negb bind js_toUpperCase].
    rewrite Hr. reflexivity.
Qed.

(** X3. After a truthy query and embedding, a uniclass_type that is not a
    string makes the single-query handler answer 500 Internal server error.
    So does an output_format of null when the store returns at least one
    row. *)
Theorem single_type_errors :
  forall nts provider rpc req q ut,
  method req = "POST" ->
  member (body req) (KName "query") = Ok q ->
  member (body req) (KName "uniclass_type") = Ok ut ->
  truthy q = true -> truthy ut = true ->
  truthy (getEmbedding provider q) = true ->
  ((forall s, ut <> JStr s) ->
     handler_single nts provider rpc req = S500 "Internal server error") /\
  (forall s best rest, ut = JStr s ->
     member (body req) (KName "output_format") = Ok JNull ->
     truthy (rerror (rpc (getEmbedding provider q) (upper s) (1 # 10) 3%Z))
       = false ->
     rdata (rpc (getEmbedding provider q) (upper s) (1 # 10) 3%Z)
       = JArr (best :: rest) ->
     handler_single nts provider rpc req = S500 "Internal server error").
Proof.
  intros nts provider rpc req q ut Hm Hq Hut Htq Htu Hte.
  destruct (single_post_prefix nts provider rpc req q ut Hm Hq Hut Htq Htu)
    as (of & Hof & ->).
  cbv zeta. rewrite Hte. cbn [negb]. split.
  - intros Hs. destruct ut; try reflexivity. exfalso. eapply Hs. reflexivity.
  - intros s best rest -> Hof' Hr Hd. rewrite Hof in Hof'.
    injection Hof' as ->. cbn [bind js_toUpperCase].
    rewrite Hr, Hd. cbn [truthy negb member bind].
    rewrite strict_eq_num_length. reflexivity.
Qed.

(** X5. Whenever the single-query handler answers 200, the sequential batch
    loop of part_002 yields the same match, confidence and alternatives for
    that body used as a query item, at any index, given the same store and
    the embedding of its query. *)
Theorem single_matches_batch_lookup :
  forall nts provider rpc req m c alts,
  handler_single nts provider rpc req = S200 m c alts ->
  exists q, member (body req) (KName "query") = Ok q /\
  forall i, process_item_seq nts rpc i (body req) (getEmbedding provider q) =
    Ok {| request_id := effective_id (supplied_id (body req)) i;
          match_ := m; confidence := c; alternatives := alts |}.
Proof.
  intros nts provider rpc req m c alts H.
  unfold handler_single in H.
  destruct (String.eqb (method req) "OPTIONS"); [discriminate|].
  destruct (negb _); [discriminate|].
  destruct (member (body req) (KName "query")) as [q|] eqn:Hq;
    cbn [bind catch] in H; [|discriminate].
  exists q. split; [reflexivity|]. intros i.
  destruct (member (body req) (KName "uniclass_type")) as [ut|] eqn:Hut;
    cbn [bind catch] in H; [|discriminate].
  destruct (member (body req) (KName "output_format")) as [of|] eqn:Hof;
    cbn [bind catch] in H; [|discriminate].
  destruct (member_ok_other _ _ (KName "request_id") _ Hq) as [rid Hrid].
  unfold process_item_seq, destructure_query.
  rewrite Hut, Hof, Hrid. cbn [bind]. rewrite (supplied_id_member _ _ Hrid).
  destruct (negb (truthy q) || negb (truthy ut)); [discriminate|].
  unfold lookup_entry. cbv zeta in H |- *.
  destruct (negb (truthy (getEmbedding provider q))); [discriminate|].
  destruct (js_toUpperCase ut) as [filter|]; cbn [bind catch] in H |- *;
    [|discriminate].
  destruct (truthy (rerror _)); [discriminate|].
  destruct (negb (truthy (rdata _))).
  { injection H as <- <- <-. reflexivity. }
  destruct (member (rdata _) (KName "length")) as [len|];
    cbn [bind catch] in H |- *; [|discriminate].
  destruct (strict_eq_num len 0).
  { injection H as <- <- <-. reflexivity. }
  destruct (member (rdata _) (KIdx 0)) as [best|];
    cbn [bind catch] in H |- *; [|discriminate].
  destruct (js_toUpperCase _) as [fmt|]; cbn [bind catch] in H |- *;
    [|discriminate].
  destruct (render_match nts fmt best) as [t|]; cbn [bind catch] in H |- *;
    [|discriminate].
  destruct (member best (KName "similarity")) as [sim|];
    cbn [bind catch] in H |- *; [|discriminate].
  destruct (js_toFixed2 sim) as [score|]; cbn [bind catch] in H |- *;
    [|discriminate].
  destruct (rest_alternatives _) as [alts'|]; cbn [bind catch] in H |- *;
    [|discriminate].
  injection H as <- <- <-. reflexivity.
Qed.

(** X6. If every embedding the provider yields is null, undefined or an
    array of numbers, the first batch handler of batch-match-uniclass.js
    gives exactly the responses of the part_002 handler. *)
Theorem first_batch_handler_as_sequential :
  forall nts provider rpc req,
  (forall c, Forall vector_or_missing (getBatchEmbeddings provider c)) ->
  handler_seq_v1 nts provider rpc req = handler_seq nts provider rpc req.
Proof.
  intros nts provider rpc req Hp. unfold handler_seq_v1, handler_seq.
  destruct (String.eqb (method req) "OPTIONS"); [reflexivity|].
  destruct (negb _); [reflexivity|].
  destruct (member (body req) (KName "queries")) as [queries|];
    cbn [bind catch]; [|reflexivity].
  destruct (valid_batch queries) as [qs|]; [|reflexivity].
  destruct (mapM (fun q => member q (KName "query")) qs) as [texts|];
    cbn [bind catch]; [|reflexivity].
  destruct (forensic_logs_ok (fetch_embeddings (getBatchEmbeddings provider) texts)
              (fetch_embeddings_Forall _ _ _ Hp)) as [H1 H2].
  cbv zeta. rewrite H1, H2. reflexivity.
Qed.

Lemma getBatchEmbeddings_v2_length provider texts :
  (forall c data es, provider c = PJson data ->
     member data (KName "embeddings") = Ok (JArr es) -> length es = length c) ->
  length (getBatchEmbeddings_v2 provider texts) = length texts.
Proof.
  intros Hp. unfold getBatchEmbeddings_v2.
  destruct (provider texts) as [|data] eqn:Ep; simpl;
    [now rewrite repeat_length|].
  destruct (member data (KName "embeddings")) as [embs|] eqn:Em; simpl;
    [|now rewrite repeat_length].
  destruct (truthy embs); simpl; [|now rewrite repeat_length].
  destruct embs; simpl; try now rewrite repeat_length.
  destruct (mapM _ xs) as [vs|] eqn:Ev; simpl; [|now rewrite repeat_length].
  rewrite (mapM_length _ _ _ Ev). eapply Hp; eauto.
Qed.

(** X8. If the provider returns as many embeddings as texts sent, the
    chunked fetch with the getBatchEmbeddings of part_000 yields one
    embedding per query text, the i-th being entry i mod 100 of chunk i /
    100. A failed request or a falsy embeddings field makes a chunk a list
    of nulls of the chunk's length. *)
Theorem parallel_fetch_alignment :
  forall provider texts,
  (forall c data es, provider c = PJson data ->
     member data (KName "embeddings") = Ok (JArr es) -> length es = length c) ->
  length (fetch_embeddings (getBatchEmbeddings_v2 provider) texts) =
    length texts /\
  (forall i, i < length texts ->
     nth_error (fetch_embeddings (getBatchEmbeddings_v2 provider) texts) i =
     nth_error (getBatchEmbeddings_v2 provider
                  (nth (i / CHUNK_SIZE) (chunks texts) []))
               (i mod CHUNK_SIZE)) /\
  (forall c, provider c = PFail ->
     getBatchEmbeddings_v2 provider c = repeat JNull (length c)) /\
  (forall c data v, provider c = PJson data ->
     member data (KName "embeddings") = Ok v -> truthy v = false ->
     getBatchEmbeddings_v2 provider c = repeat JNull (length c)).
Proof.
  intros provider texts Hp.
  assert (Hg : forall c, length (getBatchEmbeddings_v2 provider c) = length c)
    by (intros; now apply getBatchEmbeddings_v2_length).
  split; [now apply fetch_embeddings_length|].
  split; [intros i Hi; now apply fetch_embeddings_nth|].
  split.
  - intros c H. unfold getBatchEmbeddings_v2. now rewrite H.
  - intros c data v H Hv Ht. unfold getBatchEmbeddings_v2.
    rewrite H. cbn [bind]. rewrite Hv. cbn [bind]. now rewrite Ht.
Qed.

(** X9. In the part_001 handler, a batch of at most 200 queries for which
    the provider returns a different number of non-null embeddings than
    queries gets 500 Failed to get batch embeddings. *)
Theorem capped_embedding_count_mismatch :
  forall nts provider rpc req qs texts data es,
  method req = "POST" ->
  member (body req) (KName "queries") = Ok (JArr qs) ->
  qs <> [] -> length qs <= 200 ->
  mapM (fun q => member q (KName "query")) qs = Ok texts ->
  provider texts = PJson data ->
  member data (KName "embeddings") = Ok (JArr es) ->
  Forall nonnullish es -> length es <> length qs ->
  handler_capped nts provider rpc req = Resp500 "Failed to get batch embeddings".
Proof.
  intros nts provider rpc req qs texts data es Hm Hq Hne Hlen Ht Hp He Hes Hneq.
  destruct (mapM_ok (fun emb => member emb (KName "values")) es)
    as [vs Hvs].
  { intros x Hx. apply member_nonnullish.
    exact (proj1 (Forall_forall _ _) Hes x Hx). }
  unfold handler_capped. enter_handler Hm Hq.
  destruct qs as [|q0 qs']; [contradiction|]. cbn [valid_batch].
  replace (Nat.ltb 200 (length (q0 :: qs'))) with false
    by (symmetry; apply Nat.ltb_ge; exact Hlen).
  rewrite Ht. cbn [bind].
  unfold getBatchEmbeddings_single. rewrite Hp. cbn [bind]. rewrite He.
  cbn [bind]. rewrite Hvs. cbn [bind catch].
  rewrite (mapM_length _ _ _ Hvs), (mapM_length _ _ _ Ht).
  replace (Nat.eqb (length es) (length (q0 :: qs'))) with false
    by (symmetry; apply Nat.eqb_neq; exact Hneq).
  reflexivity.
Qed.

Lemma nth_js_truthy_length l k :
  truthy (nth_js l k) = true -> k < length l.
Proof.
  unfold nth_js. destruct (nth_error l k) eqn:E; [|discriminate].
  intros _. apply nth_error_Some. rewrite E. discriminate.
Qed.

(** X7. In the part_002 handler, truthy first and second embeddings one of
    which is not an array make the forensic logging throw, so the whole
    batch answers 500 Internal server error. In the first handler of batch-
    match-uniclass.js the same happens when there are at least two
    embeddings and the first, second or last is neither null, undefined nor
    an array. *)
Theorem forensic_logging_aborts_batch :
  forall nts provider rpc req qs texts,
  method req = "POST" ->
  member (body req) (KName "queries") = Ok (JArr qs) -> qs <> [] ->
  mapM (fun q => member q (KName "query")) qs = Ok texts ->
  let embs := fetch_embeddings (getBatchEmbeddings provider) texts in
  (truthy (nth_js embs 0) = true -> truthy (nth_js embs 1) = true ->
   (forall xs, nth_js embs 0 <> JArr xs) \/ (forall xs, nth_js embs 1 <> JArr xs) ->
   handler_seq nts provider rpc req = Resp500 "Internal server error") /\
  (1 < length embs ->
   (exists k, (k = 0 \/ k = 1 \/ k = length embs - 1) /\
      nonnullish (nth_js embs k) /\ forall xs, nth_js embs k <> JArr xs) ->
   handler_seq_v1 nts provider rpc req = Resp500 "Internal server error").
Proof.
  intros nts provider rpc req qs texts Hm Hq Hne Ht embs.
  destruct qs as [|q0 qs']; [contradiction|].
  assert (Hsnip : forall v, (forall xs, v <> JArr xs) -> snippet v = Throw)
    by (intros v Hv; destruct v; try reflexivity; exfalso; eapply Hv; eauto).
  assert (Hopt : forall v, nonnullish v -> (forall xs, v <> JArr xs) ->
                 opt_snippet v = Throw)
    by (intros v [H1 H2] Hv; destruct v; try contradiction;
        apply Hsnip; exact Hv).
  split.
  - intros H0 H1 Hna. unfold handler_seq. enter_handler Hm Hq.
    cbn [valid_batch]. rewrite Ht. cbn [bind]. cbv zeta. fold embs.
    unfold forensic_log. rewrite H0, H1.
    replace (Nat.ltb 1 (length embs)) with true
      by (symmetry; apply Nat.ltb_lt; apply nth_js_truthy_length in H1; lia).
    cbn [andb]. destruct Hna as [Hna|Hna].
    + rewrite (Hsnip _ Hna). reflexivity.
    + destruct (snippet (nth_js embs 0)) as [[]|]; cbn [bind catch];
        [|reflexivity].
      rewrite (Hsnip _ Hna). reflexivity.
  - intros Hlen (k & Hk & Hnn & Hna). unfold handler_seq_v1.
    enter_handler Hm Hq.
    cbn [valid_batch]. rewrite Ht. cbn [bind]. cbv zeta. fold embs.
    unfold forensic_log_v1.
    replace (Nat.ltb 1 (length embs)) with true
      by (symmetry; apply Nat.ltb_lt; exact Hlen).
    destruct (opt_snippet (nth_js embs 0)) as [[]|] eqn:E0;
      cbn [bind]; [|reflexivity].
    destruct (opt_snippet (nth_js embs 1)) as [[]|] eqn:E1;
      cbn [bind]; [|reflexivity].
    destruct (opt_snippet (nth_js embs (length embs - 1))) as [[]|] eqn:E2;
      cbn [bind]; [|reflexivity].
    exfalso. destruct Hk as [-> | [-> | ->]];
      [rewrite (Hopt _ Hnn Hna) in E0 | rewrite (Hopt _ Hnn Hna) in E1 |
       rewrite (Hopt _ Hnn Hna) in E2]; discriminate.
Qed.

(** X4. Every 200 answer of the single-query handler is either the no-match
    answer (match No match found:0.00, confidence 0, no alternatives) or a
    match string ending in a colon followed by the two-decimal rendering of
    the returned confidence. *)
Theorem single_answer_shape :
  forall nts provider rpc req m c alts,
  handler_single nts provider rpc req = S200 m c alts ->
  (m = "No match found:0.00" /\ c = JNum 0 /\ alts = []) \/
  (exists r score, js_toFixed2 c = Ok score /\ m = r ++ ":" ++ score).
Proof.
  intros nts provider rpc req m c alts H. unfold handler_single in H.
  destruct (String.eqb (method req) "OPTIONS"); [discriminate|].
  destruct (negb _); [discriminate|].
  split_binds H; cbn [catch] in H; try discriminate H;
    injection H as <- <- <-;
    first [solve [left; auto] |
           right; do 2 eexists; split; [eassumption|reflexivity]].
Qed.

Lemma single_request_validation_witness :
  handler_single example_number_to_string example_single_provider example_store
    (example_single_request
       (JObj [("query", JStr ""); ("uniclass_type", JStr "ss")]))
  = S400 "Missing query or uniclass_type".
Proof.
  destruct (single_request_validation example_number_to_string
              example_single_provider example_store
              (example_single_request
                 (JObj [("query", JStr ""); ("uniclass_type", JStr "ss")])))
    as (_ & _ & _ & H).
  exact (H eq_refl (JStr "") (JStr "ss") eq_refl eq_refl (or_introl eq_refl)).
Defined.

Lemma single_embedding_and_store_failures_witness :
  handler_single example_number_to_string example_single_provider
    example_failing_store (example_single_request (example_query JUndef JUndef))
  = S500 "Database search failed".
Proof.
  destruct (single_embedding_and_store_failures example_number_to_string
              example_single_provider example_failing_store
              (example_single_request (example_query JUndef JUndef))
              (JStr "external wall") (JStr "ss")
              eq_refl eq_refl eq_refl eq_refl eq_refl) as (_ & _ & H).
  exact (H _ _ (JArr [JNum 1; JNum 0]) "ss" eq_refl eq_refl eq_refl eq_refl
           eq_refl eq_refl).
Defined.

Lemma single_type_errors_witness :
  handler_single example_number_to_string example_single_provider example_store
    (example_single_request (example_query JUndef JNull))
  = S500 "Internal server error".
Proof.
  destruct (single_type_errors example_number_to_string
              example_single_provider example_store
              (example_single_request (example_query JUndef JNull))
              (JStr "external wall") (JStr "ss")
              eq_refl eq_refl eq_refl eq_refl eq_refl eq_refl) as (_ & H).
  exact (H "ss" _ _ eq_refl eq_refl eq_refl eq_refl).
Defined.

Lemma single_matches_batch_lookup_witness :
  exists q,
    member (example_query (JNum 7) (JStr "code")) (KName "query") = Ok q /\
    process_item_seq example_number_to_string example_store 0
      (example_query (JNum 7) (JStr "code"))
      (getEmbedding example_single_provider q) =
    Ok {| request_id := JNum 7; match_ := "Ss_25_10:0.87";
          confidence := JNum sim_087;
          alternatives := [row_alternative "Ss_25_20" "Partitions" (1 # 2)] |}.
Proof.
  destruct (single_matches_batch_lookup example_number_to_string
              example_single_provider example_store
              (example_single_request (example_query (JNum 7) (JStr "code")))
              "Ss_25_10:0.87" (JNum sim_087)
              [row_alternative "Ss_25_20" "Partitions" (1 # 2)]
              ltac:(vm_compute; reflexivity)) as (q & Hq & H).
  exists q. split; [exact Hq|]. exact (H 0).
Defined.

Lemma single_answer_shape_witness :
  exists r score, js_toFixed2 (JNum sim_087) = Ok score /\
                  "Ss_25_10:0.87" = r ++ ":" ++ score.
Proof.
  destruct (single_answer_shape example_number_to_string
              example_single_provider example_store
              (example_single_request (example_query (JNum 7) (JStr "code")))
              "Ss_25_10:0.87" (JNum sim_087)
              [row_alternative "Ss_25_20" "Partitions" (1 # 2)]
              ltac:(vm_compute; reflexivity)) as [(H & _)|H];
    [discriminate H|exact H].
Defined.

Lemma first_batch_handler_as_sequential_witness :
  handler_seq_v1 example_number_to_string example_vector_provider example_store
    (example_request [example_query (JNum 1) (JStr "CODE")]) =
  handler_seq example_number_to_string example_vector_provider example_store
    (example_request [example_query (JNum 1) (JStr "CODE")]).
Proof.
  apply first_batch_handler_as_sequential. intros c.
  rewrite example_vector_provider_embeddings_seq.
  apply Forall_forall. intros x Hx. apply repeat_spec in Hx. subst x.
  right; right. exists [JNum 1; JNum 0]. split; [reflexivity|].
  repeat constructor; eauto.
Defined.

Lemma forensic_logging_aborts_batch_witness :
  handler_seq example_number_to_string example_string_vector_provider
    example_store
    (example_request [example_query (JNum 1) JUndef;
                      example_query (JNum 2) JUndef])
  = Resp500 "Internal server error" /\
  handler_seq_v1 example_number_to_string example_string_vector_provider
    example_store
    (example_request [example_query (JNum 1) JUndef;
                      example_query (JNum 2) JUndef])
  = Resp500 "Internal server error".
Proof.
  destruct (forensic_logging_aborts_batch example_number_to_string
              example_string_vector_provider example_store
              (example_request [example_query (JNum 1) JUndef;
                                example_query (JNum 2) JUndef])
              [example_query (JNum 1) JUndef; example_query (JNum 2) JUndef]
              [JStr "external wall"; JStr "external wall"]
              eq_refl eq_refl ltac:(discriminate) eq_refl) as [H1 H2].
  split.
  - apply H1; [vm_compute; reflexivity|vm_compute; reflexivity|].
    left. vm_compute. intros xs; discriminate.
  - apply H2; [vm_compute; lia|].
    exists 0. split; [left; reflexivity|].
    vm_compute. split; [split; discriminate|intros xs; discriminate].
Defined.

Lemma parallel_fetch_alignment_witness :
  length (fetch_embeddings (getBatchEmbeddings_v2 example_vector_provider)
            (repeat (JStr "wall") 150)) = 150 /\
  getBatchEmbeddings_v2 example_failing_provider [JStr "wall"] = [JNull].
Proof.
  split.
  - exact (proj1 (parallel_fetch_alignment example_vector_provider
                    (repeat (JStr "wall") 150)
                    example_vector_provider_contract)).
  - refine (proj1 (proj2 (proj2 (parallel_fetch_alignment
                    example_failing_provider [] _))) [JStr "wall"] eq_refl).
    intros c data es H; discriminate H.
Defined.

Lemma capped_embedding_count_mismatch_witness :
  handler_capped example_number_to_string example_short_provider example_store
    (example_request [example_query (JNum 1) JUndef;
                      example_query (JNum 2) JUndef])
  = Resp500 "Failed to get batch embeddings".
Proof.
  apply (capped_embedding_count_mismatch example_number_to_string
           example_short_provider example_store
           (example_request [example_query (JNum 1) JUndef;
                             example_query (JNum 2) JUndef])
           [example_query (JNum 1) JUndef; example_query (JNum 2) JUndef]
           [JStr "external wall"; JStr "external wall"]
           (JObj [("embeddings",
                   JArr [JObj [("values", JArr [JNum 1; JNum 0])]])])
           [JObj [("values", JArr [JNum 1; JNum 0])]]);
    try reflexivity; try discriminate.
  - simpl; lia.
  - constructor; [split; discriminate|constructor].
Defined.

Lemma batch_entries_without_alternatives_witness :
  match handler_batch example_number_to_string example_string_to_number
          example_vector_provider example_batch_store
          (example_request [example_query (JStr "1") (JStr "CODE");
                            example_query (JNum 1) JUndef;
                            example_query JUndef JUndef]) with
  | Resp200 _ rs => Forall (fun e => alternatives e = []) rs
  | _ => False
  end.
Proof.
  pose proof (batch_entries_without_alternatives example_number_to_string
              example_string_to_number example_vector_provider
              example_batch_store
              (example_request [example_query (JStr "1") (JStr "CODE");
                                example_query (JNum 1) JUndef;
                                example_query JUndef JUndef])
              [example_query (JStr "1") (JStr "CODE");
               example_query (JNum 1) JUndef; example_query JUndef JUndef])
    as T.
  destruct (handler_batch _ _ _ _ _) eqn:E;
    try (vm_compute in E; discriminate).
  exact (T _ _ eq_refl eq_refl).
Defined.

Lemma batch_entry_request_ids_witness :
  match handler_batch example_number_to_string example_string_to_number
          example_vector_provider example_batch_store
          (example_request [example_query (JStr "1") (JStr "CODE");
                            example_query (JNum 1) JUndef;
                            example_query JUndef JUndef]) with
  | Resp200 _ rs => forall e, nth_error rs 2 = Some e ->
      same_value_zero (request_id e) (JNum 2) = true
  | _ => False
  end.
Proof.
  pose proof (batch_entry_request_ids example_number_to_string
              example_string_to_number example_vector_provider
              example_batch_store
              (example_request [example_query (JStr "1") (JStr "CODE");
                                example_query (JNum 1) JUndef;
                                example_query JUndef JUndef])
              [example_query (JStr "1") (JStr "CODE");
               example_query (JNum 1) JUndef; example_query JUndef JUndef])
    as T.
  destruct (handler_batch _ _ _ _ _) eqn:E;
    try (vm_compute in E; discriminate).
  intros e He. destruct (T _ _ eq_refl eq_refl 2 e He) as (q & Hq & H).
  injection Hq as <-. exact H.
Defined.

Lemma batch_colliding_ids_share_entry_witness :
  match handler_batch example_number_to_string example_string_to_number
          example_vector_provider example_batch_store
          (example_request [example_query (JStr "1") (JStr "CODE");
                            example_query (JNum 1) JUndef;
                            example_query JUndef JUndef]) with
  | Resp200 _ rs => forall ei ej, nth_error rs 0 = Some ei ->
      nth_error rs 1 = Some ej ->
      ei = ej \/
      (exists mi mj,
         In mi ["No match found:0.00"; "Embedding failed:0.00"] /\
         In mj ["No match found:0.00"; "Embedding failed:0.00"] /\
         ei = sentinel (request_id ei) mi /\ ej = sentinel (request_id ej) mj)
  | _ => False
  end.
Proof.
  pose proof (batch_colliding_ids_share_entry example_number_to_string
              example_string_to_number example_vector_provider
              example_batch_store
              (example_request [example_query (JStr "1") (JStr "CODE");
                                example_query (JNum 1) JUndef;
                                example_query JUndef JUndef])
              [example_query (JStr "1") (JStr "CODE");
               example_query (JNum 1) JUndef; example_query JUndef JUndef])
    as T.
  destruct (handler_batch _ _ _ _ _) eqn:E;
    try (vm_compute in E; discriminate).
  intros ei ej Hi Hj.
  exact (T _ _ 0 1 _ _ ei ej eq_refl eq_refl eq_refl eq_refl eq_refl Hi Hj).
Defined.

Lemma batch_rows_last_one_wins_witness :
  exists mb e,
    foldM (batch_item example_number_to_string example_string_to_number
             [example_query (JNum 1) JUndef])
      [] [example_batch_row (JNum 1) "Ss_25_10" "Walls" sim_087] = Ok mb /\
    batch_item example_number_to_string example_string_to_number
      [example_query (JNum 1) JUndef] mb
      (example_batch_row (JNum 1) "Ss_25_20" "Partitions" (1 # 2)) =
      Ok (map_set (JNum 1) e mb) /\
    match foldM (batch_item example_number_to_string example_string_to_number
                   [example_query (JNum 1) JUndef])
            [] [example_batch_row (JNum 1) "Ss_25_10" "Walls" sim_087;
                example_batch_row (JNum 1) "Ss_25_20" "Partitions" (1 # 2);
                example_batch_row (JNum 2) "Ss_25_30" "Doors" (1 # 4)] with
    | Ok m => map_get (JNum 1) m = Some e
    | Throw => False
    end.
Proof.
  destruct (foldM (batch_item example_number_to_string example_string_to_number
                     [example_query (JNum 1) JUndef])
              [] [example_batch_row (JNum 1) "Ss_25_10" "Walls" sim_087;
                  example_batch_row (JNum 1) "Ss_25_20" "Partitions" (1 # 2);
                  example_batch_row (JNum 2) "Ss_25_30" "Doors" (1 # 4)])
    as [m|] eqn:E; [|vm_compute in E; discriminate E].
  destruct (batch_rows_last_one_wins example_number_to_string
              example_string_to_number [example_query (JNum 1) JUndef] []
              [example_batch_row (JNum 1) "Ss_25_10" "Walls" sim_087]
              (example_batch_row (JNum 1) "Ss_25_20" "Partitions" (1 # 2))
              [example_batch_row (JNum 2) "Ss_25_30" "Doors" (1 # 4)]
              m (JNum 1) E eq_refl) as (mb & e & H1 & H2 & H3).
  - intros it' rid' [<-|[]] Hr. injection Hr as <-. reflexivity.
  - exists mb, e. auto.
Defined.

Lemma batch_call_sends_embedded_queries_witness :
  match mapiM (prepare_query example_number_to_string example_string_to_number
                 [JArr [JNum 1]; JNull])
          [example_query (JNum 5) JUndef; example_query (JNum 6) JUndef] with
  | Ok prep =>
      map (fun p => snd (fst p)) (concat prep) = [JArr [JNum 1]] /\
      map (fun p => fst (fst p)) (concat prep) = [JNum 5]
  | Throw => False
  end.
Proof.
  destruct (mapiM (prepare_query example_number_to_string
                     example_string_to_number [JArr [JNum 1]; JNull])
              [example_query (JNum 5) JUndef; example_query (JNum 6) JUndef])
    as [prep|] eqn:E; [|vm_compute in E; discriminate E].
  destruct (batch_call_sends_embedded_queries example_number_to_string
              example_string_to_number [JArr [JNum 1]; JNull]
              [example_query (JNum 5) JUndef; example_query (JNum 6) JUndef]
              prep E) as (H1 & H2 & _).
  split; [rewrite H1 | rewrite H2]; vm_compute; reflexivity.
Defined.

Lemma batch_row_output_format_witness :
  batch_output_format example_number_to_string
    [example_query (JNum 1) (JStr "code")] (JStr "0") = Ok "CODE" /\
  batch_output_format example_number_to_string
    [example_query (JNum 1) (JStr "code")] (JNum 1) = Ok "COBIE".
Proof.
  split.
  - exact (proj2 (proj2 (batch_row_output_format example_number_to_string
             [example_query (JNum 1) (JStr "code")] 0 (JStr "0")
             (or_intror eq_refl)))
             _ "code" eq_refl eq_refl).
  - exact (proj1 (batch_row_output_format example_number_to_string
             [example_query (JNum 1) (JStr "code")] 1 (JNum 1)
             (or_introl eq_refl)) (le_n 1)).
Defined.

